(** * GISNav: admission gate, image aligner, geopose reconstruction and
      position smoother

    Shallow embedding of [gisnav/core/transform_node.py] (class
    [TransformNode]) and of [python_px4_ros2_map_nav/kalman.py] (class
    [SimpleFilter]).

    Numbers.  Python and numpy floats are idealised as real numbers: a
    float value is either NaN or a real, rounding and overflow are not
    modelled.  Python [int]s are [Z].  Where the source tests object
    identity ([is np.nan]) a float is an object, not just a value. *)

From Stdlib Require Import Reals Lra Lia ZArith List Bool RNsatz.
From Stdlib Require String.
Import String.StringSyntax.
Import ListNotations.

Delimit Scope string_scope with string.

Open Scope R_scope.

(** ** Python outcomes: a call returns a value or raises *)

Inductive exn : Type :=
| AssertionError
| IndexError
| ValueError
| TypeError
| AttributeError
| NameError
| LinAlgError.

Inductive outcome (A : Type) : Type :=
| Returned (a : A)
| Raised (e : exn).

Arguments Returned {A} a.
Arguments Raised {A} e.

Definition bind {A B : Type} (m : outcome A) (k : A -> outcome B) : outcome B :=
  match m with
  | Returned a => k a
  | Raised e => Raised e
  end.

Notation "x <- m ;; k" := (bind m (fun x => k))
  (at level 61, m at next level, right associativity).
Notation "' p <- m ;; k" := (bind m (fun p => k))
  (at level 61, p pattern, m at next level, right associativity).

(** [assert c] *)
Definition assert (c : bool) : outcome unit :=
  if c then Returned tt else Raised AssertionError.

(** Reading a name that no scope binds raises [NameError]; reading an
    attribute that the object does not have raises [AttributeError]. *)
Definition unbound_name {A : Type} (name : String.string) : outcome A :=
  Raised NameError.

Definition no_attribute {A : Type} (name : String.string) : outcome A :=
  Raised AttributeError.

Arguments unbound_name {A} name%_string.
Arguments no_attribute {A} name%_string.

(** [try: x = body  except np.linalg.LinAlgError: return None], followed
    by the rest [k] of the function. *)
Definition except_LinAlgError_return_None {A B : Type}
    (body : outcome A) (k : A -> outcome (option B)) : outcome (option B) :=
  match body with
  | Returned a => k a
  | Raised LinAlgError => Returned None
  | Raised e => Raised e
  end.

(** ** Floats *)

(** A float value. *)
Inductive float64 : Type :=
| NaN
| Fin (r : R).

(** A Python float object.  [np_nan] is the one object bound to the name
    [np.nan] in the numpy module; every other float object, whatever its
    value, is a [PyFloat]. *)
Inductive pyfloat : Type :=
| np_nan
| PyFloat (v : float64).

Definition float_value (p : pyfloat) : float64 :=
  match p with
  | np_nan => NaN
  | PyFloat v => v
  end.

(** [p is np.nan] *)
Definition is_np_nan (p : pyfloat) : bool :=
  match p with
  | np_nan => true
  | PyFloat _ => false
  end.

Definition Rltb (a b : R) : bool := if Rlt_dec a b then true else false.

(** [a < b] and [a > b] on floats: every comparison with NaN is false. *)
Definition float_lt (a b : float64) : bool :=
  match a, b with
  | Fin x, Fin y => Rltb x y
  | _, _ => false
  end.

Definition float_gt (a b : float64) : bool := float_lt b a.

Definition float_map (f : R -> R) (a : float64) : float64 :=
  match a with
  | Fin x => Fin (f x)
  | NaN => NaN
  end.

Definition float_sub (a b : float64) : float64 :=
  match a, b with
  | Fin x, Fin y => Fin (x - y)
  | _, _ => NaN
  end.


(** [int] converted for a comparison with a float *)
Definition of_int (z : Z) : float64 := Fin (IZR z).

(** [int(x)]: truncation towards zero. *)
Definition py_int (x : R) : Z :=
  if Rle_dec 0 x then Int_part x else (- Int_part (- x))%Z.

(** [x % y] on floats, for [y > 0]: the result takes the sign of [y]. *)
Definition py_mod (x y : R) : R := x - IZR (Int_part (x / y)) * y.

(** ** numpy scalar functions *)

Module np.

Definition pi : R := PI.

(** [np.degrees] *)
Definition degrees (x : R) : R := x * (180 / PI).

(** [np.arcsin]: NaN outside [-1, 1]. *)
Definition arcsin (x : R) : float64 :=
  if Rle_dec (-1) x then
    if Rle_dec x 1 then Fin (asin x) else NaN
  else NaN.

(** [np.arctan2 y x], the angle of the point [(x, y)] in [(-pi, pi]]. *)
Definition arctan2 (y x : R) : R :=
  if Rlt_dec 0 x then atan (y / x)
  else if Rlt_dec x 0 then
    if Rle_dec 0 y then atan (y / x) + PI else atan (y / x) - PI
  else if Rlt_dec 0 y then PI / 2
  else if Rlt_dec y 0 then - (PI / 2)
  else 0.

(** [np.sqrt]: NaN below zero. *)
Definition sqrt (x : R) : float64 :=
  if Rle_dec 0 x then Fin (R_sqrt.sqrt x) else NaN.

End np.

(** ** ROS messages *)

Module msg.

Record Quaternion : Type := { qx : R; qy : R; qz : R; qw : R }.

Record GeoPoint : Type := { latitude : R; longitude : R; gp_altitude : R }.

Record GeoPose : Type := { position : GeoPoint; orientation : Quaternion }.

Record GeoPoseStamped : Type := { gps_stamp : Z; pose : GeoPose }.

(** [mavros_msgs.msg.Altitude] *)
Record Altitude : Type := {
  alt_stamp : Z;
  monotonic : pyfloat;
  amsl : pyfloat;
  local : pyfloat;
  relative : pyfloat;
  terrain : pyfloat;
  bottom_clearance : pyfloat
}.

(** A pixel array: its shape and its buffer. *)
Record ndarray : Type := { shape : list Z; data : list Z }.

(** [sensor_msgs.msg.Image] as far as the node touches it: the header
    stamp, the header [frame_id] and the pixel array. *)
Record Image : Type := { img_stamp : Z; frame_id : String.string; img : ndarray }.

End msg.

Import msg.

(** ** numpy arrays of floats: 2-D arrays as lists of rows *)

Definition matrix : Type := list (list R).

(** [l[i]] *)
Definition getitem {A : Type} (l : list A) (i : nat) : outcome A :=
  match nth_error l i with
  | Some a => Returned a
  | None => Raised IndexError
  end.

Definition nrows (m : matrix) : nat := length m.

Definition ncols (m : matrix) : nat :=
  match m with
  | [] => O
  | r :: _ => length r
  end.

(** [m.shape == (h, w)] *)
Definition has_shape (h w : nat) (m : matrix) : bool :=
  Nat.eqb (length m) h && forallb (fun r => Nat.eqb (length r) w) m.

(** [m[:, j]] *)
Definition column (j : nat) (m : matrix) : list R := map (fun r => nth j r 0) m.

(** [m.T] *)
Definition transpose (m : matrix) : matrix :=
  map (fun j => column j m) (seq 0 (ncols m)).

(** [-m] *)
Definition neg (m : matrix) : matrix := map (map Ropp) m.

Definition inner (u v : list R) : R :=
  fold_right Rplus 0 (map (fun p => fst p * snd p) (combine u v)).

(** The product of conforming operands. *)
Definition dot (a b : matrix) : matrix :=
  map (fun r => map (fun j => inner r (column j b)) (seq 0 (ncols b))) a.

(** [np.matmul a b], [np.dot a b] and [a @ b] on 2-D arrays: [ValueError]
    when the inner dimensions differ. *)
Definition matmul (a b : matrix) : outcome matrix :=
  if forallb (fun r => Nat.eqb (length r) (nrows b)) a
  then Returned (dot a b)
  else Raised ValueError.

(** [np.vstack((a, b))] *)
Definition vstack (a b : matrix) : outcome matrix :=
  if Nat.eqb (ncols a) (ncols b) then Returned (a ++ b) else Raised ValueError.

(** [np.eye(n)] *)
Definition eye (n : nat) : matrix :=
  map (fun i => map (fun j => if Nat.eqb i j then 1 else 0) (seq 0 n)) (seq 0 n).

(** [dst[:len(src)] = src] on one axis. *)
Fixpoint overwrite {A : Type} (src dst : list A) : list A :=
  match src, dst with
  | s :: src', _ :: dst' => s :: overwrite src' dst'
  | _, _ => dst
  end.

(** [dst[:h, :w] = src] for [src] of shape [(h, w)]. *)
Fixpoint set_block (src dst : matrix) : matrix :=
  match src, dst with
  | s :: src', d :: dst' => overwrite s d :: set_block src' dst'
  | _, _ => dst
  end.

Fixpoint set_nth {A : Type} (j : nat) (x : A) (l : list A) : list A :=
  match j, l with
  | O, _ :: l' => x :: l'
  | S j', a :: l' => a :: set_nth j' x l'
  | _, [] => []
  end.

(** [dst[:len(v), j] = v] *)
Fixpoint set_column (j : nat) (v : list R) (dst : matrix) : matrix :=
  match v, dst with
  | x :: v', d :: dst' => set_nth j x d :: set_column j v' dst'
  | _, _ => dst
  end.

Fixpoint delete_nth {A : Type} (j : nat) (l : list A) : list A :=
  match j, l with
  | O, _ :: l' => l'
  | S j', a :: l' => a :: delete_nth j' l'
  | _, [] => []
  end.

(** [m[:h, :w]] *)
Definition block (h w : nat) (m : matrix) : matrix := firstn h (map (firstn w) m).

(** *** [np.linalg.inv] in exact arithmetic

    [LinAlgError] is raised for an array that is not square and for a
    singular one; otherwise the inverse is the adjugate over the
    determinant. *)

Definition sign (j : nat) : R := if Nat.even j then 1 else -1.

(** Laplace expansion along the first row; [n] is the number of rows. *)
Fixpoint det_rows (n : nat) (m : matrix) : R :=
  match n, m with
  | S n', r :: rest =>
      fold_right Rplus 0
        (map (fun j => sign j * nth j r 0 * det_rows n' (map (delete_nth j) rest))
             (seq 0 (length r)))
  | _, _ => 1
  end.

Definition det (m : matrix) : R := det_rows (nrows m) m.

Definition minor (i j : nat) (m : matrix) : matrix :=
  map (delete_nth j) (delete_nth i m).

Definition adjugate (m : matrix) : matrix :=
  map (fun i => map (fun j => sign (i + j) * det (minor j i m)) (seq 0 (nrows m)))
      (seq 0 (nrows m)).

Module linalg.

Definition inv (m : matrix) : outcome matrix :=
  if has_shape (nrows m) (nrows m) m then
    if Req_dec_T (det m) 0 then Raised LinAlgError
    else Returned (map (map (fun x => x / det m)) (adjugate m))
  else Raised LinAlgError.

End linalg.

(** ** OpenCV *)

Module cv2.

(** [cv2.getRotationMatrix2D(center, angle, scale)], angle in degrees:
    [[a, b, (1 - a) cx - b cy], [-b, a, b cx + (1 - a) cy]] with
    [a = scale cos angle] and [b = scale sin angle]. *)
Definition getRotationMatrix2D (center : Z * Z) (angle scale : R) : matrix :=
  let cx := IZR (fst center) in
  let cy := IZR (snd center) in
  let a := scale * cos (angle * PI / 180) in
  let b := scale * sin (angle * PI / 180) in
  [ [a; b; (1 - a) * cx - b * cy];
    [- b; a; b * cx + (1 - a) * cy] ].

End cv2.

(** What the node calls and this development leaves open: the resampling
    of [cv2.warpAffine], [np.dstack] on pixel arrays, and a function of
    the repository that is not in the source at hand,
    [messaging.rotation_matrix_to_quaternion]. *)
Class Externals : Type := {
  warpAffine : ndarray -> matrix -> Z * Z -> ndarray;
  dstack : ndarray -> ndarray -> ndarray;
  rotation_matrix_to_quaternion : matrix -> Quaternion
}.

(** ** [TransformNode] *)

Module TransformNode.

(** The properties of the node a call reads.  [altitude] is read by
    [_should_estimate_geopose] as [self.altitude]. *)
Record t : Type := {
  max_pitch : option Z;
  min_match_altitude : option Z;
  orthoimage : option Image;
  camera_geopose : option GeoPoseStamped;
  image : option Image;
  altitude : option Altitude
}.

Record _PoseEstimationIntermediateOutputs : Type := {
  affine_transform : matrix;
  camera_yaw_degrees : R
}.

Record _PoseEstimationContext : Type := {
  ctx_orthoimage : Image;
  ctx_camera_geopose : GeoPoseStamped
}.

Definition ROS_D_MISC_MAX_PITCH : Z := 30.
Definition ROS_D_MISC_MIN_MATCH_ALTITUDE : Z := 80.

(** *** Admission gate *)

Definition _off_nadir_pitch (q : Quaternion) : float64 :=
  let pitch_angle := np.arcsin (2 * (qw q * qy q - qx q * qz q)) in
  let off_nadir_angle := float_sub (Fin (np.pi / 2)) pitch_angle in
  float_map np.degrees off_nadir_angle.

(** [assert_type(max_pitch, (int, float))] holds of an [int]. *)
Definition _camera_roll_or_pitch_too_high (self : t) (max_pitch : Z) : bool :=
  match camera_geopose self with
  | Some cg =>
      let off_nadir_pitch_deg := _off_nadir_pitch (orientation (pose cg)) in
      if float_gt off_nadir_pitch_deg (of_int max_pitch) then true else false
  | None => true
  end.

(** The inner function [_should_estimate] of [_should_estimate_geopose]. *)
Definition _should_estimate (self : t) (altitude : Altitude) (max_pitch min_alt : Z)
  : outcome bool :=
  if _camera_roll_or_pitch_too_high self max_pitch then Returned false
  else
    _ <- assert (0 <? min_alt)%Z ;;
    if is_np_nan (terrain altitude) then Returned false
    else if float_lt (float_value (terrain altitude)) (of_int min_alt)
         then Returned false
         else Returned true.

(** Modelled from the spec: the decorator [narrow_types] of
    [gisnav/_decorators.py] is not in the source at hand.  By the
    [MissingInput] rule of the error taxonomy a call with an absent
    input is skipped: the decorated function returns [None], which
    [bool] turns into [False]. *)
Definition _should_estimate_geopose (self : t) : outcome bool :=
  match altitude self, max_pitch self, min_match_altitude self with
  | Some a, Some p, Some m => _should_estimate self a p m
  | _, _, _ => Returned false
  end.

(** *** Heading and UTM zone *)

Definition _extract_yaw (q : Quaternion) : R :=
  let enu_yaw :=
    np.arctan2 (2 * (qw q * qz q + qx q * qy q))
               (1 - 2 * (qy q ^ 2 + qz q ^ 2)) in
  let enu_yaw_deg := np.degrees enu_yaw in
  let heading := 90 - enu_yaw_deg in
  let heading := py_mod (heading + 360) 360 in
  heading.

Definition _determine_utm_zone (longitude : R) : Z :=
  (py_int ((longitude + 180) / 6) + 1)%Z.

(** *** Image aligner *)

Definition _get_rotation_matrix (image : ndarray) (degrees : R) : outcome matrix :=
  match shape image with
  | height :: width :: _ =>
      let cx := (height / 2)%Z in
      let cy := (width / 2)%Z in
      Returned (cv2.getRotationMatrix2D (cx, cy) degrees 1)
  | _ => Raised ValueError
  end.

Definition _get_translation_matrix (dx dy : Z) : matrix :=
  [ [1; 0; IZR dx]; [0; 1; IZR dy] ].

(** Lines 480-498 of [_get_affine_matrix]: the rotation [r], the crop
    translation [t] and [affine_3d] as first filled in, from the
    composition of the two. *)
Definition affine_3d_composed (image : ndarray) (degrees : R)
    (crop_height crop_width : Z) : outcome (matrix * matrix * matrix) :=
  r <- _get_rotation_matrix image degrees ;;
  _ <- assert (has_shape 2 3 r) ;;
  s0 <- getitem (shape image) 0 ;;
  let dx := ((s0 - crop_height) / 2)%Z in
  s1 <- getitem (shape image) 1 ;;
  let dy := ((s1 - crop_width) / 2)%Z in
  let t := _get_translation_matrix dx dy in
  _ <- assert (has_shape 2 3 t) ;;
  r3 <- vstack r [ [0; 0; 1] ] ;;
  affine_2d <- matmul t r3 ;;
  let affine_3d := eye 4 in
  let affine_3d := set_block (map (firstn 2) affine_2d) affine_3d in
  let affine_3d := set_column 3 (column 2 affine_2d) affine_3d in
  _ <- assert (has_shape 4 4 affine_3d) ;;
  Returned (r, t, affine_3d).

(** The translation hack, lines 500-504: [t[:2, 2] = -t[:2, 2][::-1]]
    and the product with the rotation. *)
Definition translation_hack (r t : matrix) : outcome matrix :=
  let t := set_column 2 (map Ropp (rev (firstn 2 (column 2 t)))) t in
  r3 <- vstack r [ [0; 0; 1] ] ;;
  matmul t r3.

Definition _get_affine_matrix (image : ndarray) (degrees : R)
    (crop_height crop_width : Z) : outcome matrix :=
  ' (r, t, affine_3d) <- affine_3d_composed image degrees crop_height crop_width ;;
  affine_hack <- translation_hack r t ;;
  let affine_3d := set_block (block 2 2 affine_hack) affine_3d in
  let affine_3d := set_column 3 (firstn 2 (column 2 affine_hack)) affine_3d in
  Returned affine_3d.

Section WithExternals.

Context {E : Externals}.

(** The 2x3 array handed to [cv2.warpAffine]. *)
Definition warp_affine_2d (affine : matrix) : matrix :=
  let affine_2d := map (delete_nth 2) affine in
  firstn 2 affine_2d.

Definition _rotate_and_crop_image (image : ndarray) (degrees : R) (shape : Z * Z)
  : outcome (ndarray * matrix) :=
  affine <- _get_affine_matrix image degrees (fst shape) (snd shape) ;;
  let affine_2d := warp_affine_2d affine in
  Returned (warpAffine image affine_2d (snd shape, fst shape), affine).

(** *** Geopose reconstruction *)

Definition _seu_to_ned_matrix : matrix :=
  [ [-1; 0; 0]; [0; 1; 0]; [0; 0; -1] ].

(** The orientation recovery shared by [_pnp_image] (lines 325-329) and
    [_post_process_pose] (lines 392-396):
    [_seu_to_ned_matrix @ np.linalg.inv(affine_transform[:3, :3]) @ r.T]. *)
Definition ned_rotation (intermediate_outputs : _PoseEstimationIntermediateOutputs)
    (r : matrix) : outcome matrix :=
  ainv <- linalg.inv (block 3 3 (affine_transform intermediate_outputs)) ;;
  m <- matmul _seu_to_ned_matrix ainv ;;
  matmul m (transpose r).

(** The inner function [_pnp_image] of the property [pnp_image].  The
    names [query_array], [pose], [geotransform], [geopoint], [altitude]
    and [intermediate_outputs] are read without being bound in the
    function or the module, and the class has no [_to_proj_string]. *)
Definition _pnp_image (self : t) (image orthoimage : Image)
    (context : _PoseEstimationContext) : outcome (option Image) :=
  let query_img := img image in
  orthoimage_stack <- match TransformNode.orthoimage self with
                      | Some o => Returned (img o)
                      | None => Raised AttributeError
                      end ;;
  channels <- getitem (shape orthoimage_stack) 2 ;;
  _ <- assert (channels =? 3)%Z ;;
  let camera_yaw_degrees :=
    _extract_yaw (orientation (msg.pose (ctx_camera_geopose context))) in
  crop_shape <- match shape query_img with
                | h :: w :: _ => Returned (h, w)
                | _ => Raised TypeError
                end ;;
  ' (orthoimage_stack, affine_transform) <-
    _rotate_and_crop_image orthoimage_stack camera_yaw_degrees crop_shape ;;
  query_array <- unbound_name (A := ndarray) "query_array" ;;
  let pnp_image_stack := dstack query_array orthoimage_stack in
  let pnp_image_msg :=
    {| img_stamp := img_stamp image; frame_id := String.EmptyString;
       img := pnp_image_stack |} in
  let finish (r t : matrix) : outcome (option Image) :=
    let utm_zone :=
      _determine_utm_zone
        (longitude (position (msg.pose (ctx_camera_geopose context)))) in
    proj_string <-
      (f <- no_attribute (A := matrix -> matrix -> Z -> String.string)
              "_to_proj_string" ;;
       Returned (f r t utm_zone)) ;;
    Returned (Some {| img_stamp := img_stamp pnp_image_msg;
                      frame_id := proj_string;
                      img := img pnp_image_msg |}) in
  pose <- unbound_name (A := (matrix * matrix)%type) "pose" ;;
  let '(r, t) := pose in
  t_world <- matmul (transpose r) (neg t) ;;
  t_world_homogenous <- vstack t_world [ [1] ] ;;
  except_LinAlgError_return_None
    (ainv <- linalg.inv affine_transform ;; matmul ainv t_world_homogenous)
    (fun t_unrotated_uncropped =>
       t0 <- getitem t_unrotated_uncropped 0 ;;
       t1 <- getitem t_unrotated_uncropped 1 ;;
       t2 <- getitem t_unrotated_uncropped 2 ;;
       t3 <- getitem t_unrotated_uncropped 3 ;;
       let t_unrotated_uncropped := [ t1; t0; map Ropp t2; t3 ] in
       geotransform <- unbound_name (A := matrix) "geotransform" ;;
       t_wgs84 <- matmul geotransform t_unrotated_uncropped ;;
       ' (lat, lon) <- match concat t_wgs84 with
                       | a :: b :: _ => Returned (b, a)
                       | _ => Raised ValueError
                       end ;;
       _ <- getitem t_wgs84 2 ;;
       geopoint <- unbound_name (A := option GeoPoint) "geopoint" ;;
       match geopoint with
       | Some _ =>
           altitude <- unbound_name (A := option Altitude) "altitude" ;;
           match altitude with
           | Some _ =>
               pose <- unbound_name (A := (matrix * matrix)%type) "pose" ;;
               let '(r, t) := pose in
               except_LinAlgError_return_None
                 (intermediate_outputs <-
                    unbound_name (A := _PoseEstimationIntermediateOutputs)
                      "intermediate_outputs" ;;
                  ned_rotation intermediate_outputs r)
                 (fun r =>
                    let _ := rotation_matrix_to_quaternion r in
                    finish r t)
           | None => finish r t
           end
       | None => finish r t
       end).


(** The properties [_pose_estimation_context] and [pnp_image], whose
    inner functions are decorated with [narrow_types] (see
    [_should_estimate_geopose]): with an input absent the result is
    [None]. *)
Definition _pose_estimation_context (self : t) : option _PoseEstimationContext :=
  match TransformNode.orthoimage self, camera_geopose self with
  | Some o, Some c => Some {| ctx_orthoimage := o; ctx_camera_geopose := c |}
  | _, _ => None
  end.

Definition pnp_image (self : t) : outcome (option Image) :=
  match image self, TransformNode.orthoimage self, _pose_estimation_context self with
  | Some i, Some o, Some c => _pnp_image self i o c
  | _, _, _ => Returned None
  end.

End WithExternals.

End TransformNode.

(** ** [SimpleFilter] *)

Definition vector : Type := list R.

(** [a[-1]] *)
Definition last_item {A : Type} (l : list A) : outcome A :=
  match rev l with
  | x :: _ => Returned x
  | [] => Raised IndexError
  end.

(** [a[0::2]] *)
Fixpoint every_other {A : Type} (l : list A) : list A :=
  match l with
  | [] => []
  | x :: l' => x :: match l' with
                    | [] => []
                    | _ :: l'' => every_other l''
                    end
  end.

(** [np.diagonal(m)] *)
Definition diagonal (m : matrix) : list R :=
  map (fun i => nth i (nth i m []) 0) (seq 0 (Nat.min (nrows m) (ncols m))).

(** [a.squeeze()] of a 2-D array with one row. *)
Definition squeeze (m : matrix) : vector := concat m.

(** Modelled from the spec: [assert_shape] of
    [python_px4_ros2_map_nav/assertions.py] is not in the source at hand.
    The smoother "never errors" on the three-component arrays it builds:
    the check is that the array has the given shape. *)
Definition assert_shape {A : Type} (a : list A) (n : nat) : outcome unit :=
  assert (Nat.eqb (length a) n).

(** The part of pykalman the filter uses: the constructor with the three
    keyword arguments given, [em] with its iteration count, [filter] and
    [filter_update].  [em] and [filter] parse the observations they are
    given and raise when these do not fit the model. *)
Class PyKalman : Type := {
  KalmanFilter : Type;
  new_KalmanFilter : matrix -> matrix -> option vector -> KalmanFilter;
  em : KalmanFilter -> matrix -> nat -> outcome KalmanFilter;
  filter : KalmanFilter -> matrix -> outcome (list vector * list matrix);
  filter_update : KalmanFilter -> vector -> matrix -> vector -> vector * matrix
}.

(** pykalman's contract for the six-dimensional state of the filter, on
    observations of two or more rows of three: [em] returns a fitted
    filter, and [filter] gives one mean and one covariance per row,
    means of six entries and covariances 6x6. *)
Class PyKalmanShapes (K : PyKalman) : Prop := {
  em_fits :
    forall kf ms n,
      (2 <= nrows ms)%nat -> Forall (fun r => length r = 3%nat) ms ->
      exists fitted, em kf ms n = Returned fitted;
  filter_runs :
    forall kf ms,
      (2 <= nrows ms)%nat -> Forall (fun r => length r = 3%nat) ms ->
      exists means covariances,
        filter kf ms = Returned (means, covariances)
        /\ length means = nrows ms
        /\ length covariances = nrows ms
        /\ (forall m, In m means -> length m = 6%nat)
        /\ (forall c, In c covariances -> has_shape 6 6 c = true)
}.

(** pykalman on observations of a single row of several entries: the row
    is taken for a column, a series of one-dimensional observations,
    which does not fit the three rows of the observation matrix, and
    [em] raises [ValueError]. *)
Class PyKalmanOneRow (K : PyKalman) : Prop := {
  em_one_row :
    forall kf row n, (1 < length row)%nat -> em kf [row] n = Raised ValueError
}.

Module SimpleFilter.

Section WithPyKalman.

Context {K : PyKalman}.

Record t : Type := {
  _measurements : option matrix;
  _initial_state_mean : option vector;
  _kf : option KalmanFilter;
  _window_length : Z;
  _previous_mean : option vector;
  _previous_covariance : option matrix
}.

Definition _MIN_MEASUREMENTS : Z := 20.

Definition _transition_matrix : matrix :=
  [ [1; 1; 0; 0; 0; 0];
    [0; 1; 0; 0; 0; 0];
    [0; 0; 1; 1; 0; 0];
    [0; 0; 0; 1; 0; 0];
    [0; 0; 0; 0; 1; 1];
    [0; 0; 0; 0; 0; 1] ].

Definition _observation_matrix : matrix :=
  [ [1; 0; 0; 0; 0; 0];
    [0; 0; 1; 0; 0; 0];
    [0; 0; 0; 0; 1; 0] ].

Definition __init__ (window_length : Z) : t :=
  {| _measurements := None;
     _initial_state_mean := None;
     _kf := None;
     _window_length := window_length;
     _previous_mean := None;
     _previous_covariance := None |}.

(** A call leaves the filter in a state and returns or raises. *)
Definition call (A : Type) : Type := t * outcome A.

Definition set_measurements (self : t) (v : matrix) : t :=
  {| _measurements := Some v;
     _initial_state_mean := _initial_state_mean self;
     _kf := _kf self;
     _window_length := _window_length self;
     _previous_mean := _previous_mean self;
     _previous_covariance := _previous_covariance self |}.

Definition set_initial_state_mean (self : t) (v : vector) : t :=
  {| _measurements := _measurements self;
     _initial_state_mean := Some v;
     _kf := _kf self;
     _window_length := _window_length self;
     _previous_mean := _previous_mean self;
     _previous_covariance := _previous_covariance self |}.

Definition set_kf (self : t) (v : KalmanFilter) : t :=
  {| _measurements := _measurements self;
     _initial_state_mean := _initial_state_mean self;
     _kf := Some v;
     _window_length := _window_length self;
     _previous_mean := _previous_mean self;
     _previous_covariance := _previous_covariance self |}.

Definition set_previous (self : t) (mean : vector) (covariance : matrix) : t :=
  {| _measurements := _measurements self;
     _initial_state_mean := _initial_state_mean self;
     _kf := _kf self;
     _window_length := _window_length self;
     _previous_mean := Some mean;
     _previous_covariance := Some covariance |}.

Definition _init_initial_state (self : t) (measurements : matrix) : call unit :=
  let self := set_measurements self measurements in
  let mean :=
    row0 <- getitem measurements 0 ;;
    x <- getitem row0 0 ;;
    y <- getitem row0 1 ;;
    z <- getitem row0 2 ;;
    Returned [x; 0; y; 0; z; 0] in
  match mean with
  | Returned m => (set_initial_state_mean self m, Returned tt)
  | Raised e => (self, Raised e)
  end.

(** The branch of [update] taken once the buffer is full: the filter is
    built and fitted on the buffer when there is none yet, and stepped
    with the measurement otherwise. *)
Definition estimate (self : t) (ms : matrix) (measurement : matrix)
  : call (vector * matrix) :=
  match _kf self with
  | None =>
      let kf := new_KalmanFilter _transition_matrix _observation_matrix
                  (_initial_state_mean self) in
      let self := set_kf self kf in
      match em kf ms 20 with
      | Raised e => (self, Raised e)
      | Returned kf =>
          let self := set_kf self kf in
          match filter kf ms with
          | Raised e => (self, Raised e)
          | Returned (means, covariances) =>
              (self,
               mean <- last_item means ;;
               covariance <- last_item covariances ;;
               Returned (mean, covariance))
          end
      end
  | Some kf =>
      match _previous_mean self, _previous_covariance self with
      | Some previous_mean, Some previous_covariance =>
          (self,
           Returned (filter_update kf previous_mean previous_covariance
                       (squeeze measurement)))
      | _, _ => (self, Raised AssertionError)
      end
  end.

Definition update (self : t) (measurement : matrix)
  : call (option (vector * list float64)) :=
  match _measurements self with
  | None =>
      let '(self, res) := _init_initial_state self measurement in
      (self, _ <- res ;; Returned None)
  | Some ms =>
      if (Z.of_nat (length ms) <? _window_length self)%Z then
        match vstack ms measurement with
        | Returned ms' => (set_measurements self ms', Returned None)
        | Raised e => (self, Raised e)
        end
      else if negb (0 <? length ms)%nat then (self, Raised AssertionError)
      else
        let '(self, res) := estimate self ms measurement in
        match res with
        | Raised e => (self, Raised e)
        | Returned (mean, covariance) =>
            let self := set_previous self mean covariance in
            let xyz_mean := every_other mean in
            let xyz_sd := map np.sqrt (every_other (diagonal covariance)) in
            (self,
             _ <- assert_shape xyz_mean 3 ;;
             _ <- assert_shape xyz_sd 3 ;;
             Returned (Some (xyz_mean, xyz_sd)))
        end
  end.

(** The measurements fed one per call, oldest first, with what each call
    gave. *)
Fixpoint run (self : t) (measurements : list matrix)
  : t * list (outcome (option (vector * list float64))) :=
  match measurements with
  | [] => (self, [])
  | m :: rest =>
      let '(self, out) := update self m in
      let '(self, outs) := run self rest in
      (self, out :: outs)
  end.

End WithPyKalman.

End SimpleFilter.

(** A stand-in for pykalman that satisfies its contracts: a single row
    of several entries is refused, otherwise no parameter is learnt, the
    mean follows the latest observation with zero velocity and the
    covariance is the identity. *)
Definition refuse_one_row {A : Type} (ms : matrix) (a : A) : outcome A :=
  match ms with
  | [row] => if (1 <? length row)%nat then Raised ValueError else Returned a
  | _ => Returned a
  end.

Definition echo_mean (row : list R) : vector :=
  [ nth 0 row 0; 0; nth 1 row 0; 0; nth 2 row 0; 0 ].

#[export] Instance echo_kalman : PyKalman := {|
  KalmanFilter := unit;
  new_KalmanFilter := fun _ _ _ => tt;
  em := fun kf ms _ => refuse_one_row ms kf;
  filter := fun _ ms =>
    refuse_one_row ms (map echo_mean ms, map (fun _ => eye 6) ms);
  filter_update := fun _ _ covariance z => (echo_mean z, covariance)
|}.

(** ** Inputs used in the examples *)

(** The camera looking straight down: a pitch of 90 degrees about the
    y axis. *)
Definition nadir : Quaternion :=
  {| qx := 0; qy := R_sqrt.sqrt 2 / 2; qz := 0; qw := R_sqrt.sqrt 2 / 2 |}.

Definition node_with_camera (q : Quaternion) : TransformNode.t :=
  {| TransformNode.max_pitch := Some TransformNode.ROS_D_MISC_MAX_PITCH;
     TransformNode.min_match_altitude :=
       Some TransformNode.ROS_D_MISC_MIN_MATCH_ALTITUDE;
     TransformNode.orthoimage := None;
     TransformNode.camera_geopose :=
       Some {| gps_stamp := 0;
               pose := {| position := {| latitude := 60; longitude := 24;
                                         gp_altitude := 100 |};
                          orientation := q |} |};
     TransformNode.image := None;
     TransformNode.altitude := None |}.

(** An altitude message with the given height above ground. *)
Definition altitude_agl (agl : pyfloat) : Altitude :=
  {| alt_stamp := 0;
     monotonic := PyFloat (Fin 0);
     amsl := PyFloat (Fin 0);
     local := PyFloat (Fin 0);
     relative := PyFloat (Fin 0);
     terrain := agl;
     bottom_clearance := agl |}.

(** A stand-in for the functions left open: the warp gives a blank
    raster of the size asked for, stacking adds the channels up and
    every rotation is read as the identity quaternion. *)
Definition blank (height width channels : Z) : ndarray :=
  {| shape := [height; width; channels]; data := [] |}.

Definition channels_of (a : ndarray) : Z := nth 2 (shape a) 1%Z.

#[export] Instance blank_externals : Externals := {|
  warpAffine := fun image _ dsize => blank (snd dsize) (fst dsize) (channels_of image);
  dstack := fun a b =>
    blank (nth 0 (shape b) 0%Z) (nth 1 (shape b) 0%Z) (channels_of a + channels_of b);
  rotation_matrix_to_quaternion := fun _ => {| qx := 0; qy := 0; qz := 0; qw := 1 |}
|}.

(** A 4x4 raster stack of three channels and a 2x2 one. *)
Definition raster_4x4 : ndarray := {| shape := [4; 4; 3]%Z; data := [] |}.

Definition raster_2x2 : ndarray := {| shape := [2; 2; 3]%Z; data := [] |}.




Definition geopose_60_24 : GeoPoseStamped :=
  {| gps_stamp := 0;
     pose := {| position := {| latitude := 60; longitude := 24; gp_altitude := 100 |};
                orientation := nadir |} |}.

Definition context_60_24 : TransformNode._PoseEstimationContext :=
  {| TransformNode.ctx_orthoimage :=
       {| img_stamp := 0; frame_id := String.EmptyString; img := raster_4x4 |};
     TransformNode.ctx_camera_geopose := geopose_60_24 |}.

(** Position observations, one row each. *)
Definition observation (x y z : R) : matrix := [ [x; y; z] ].

(** The smoother while it buffers: [k] rows of three are held, the seed
    of the state is set and no filter exists yet. *)
Definition buffering {K : PyKalman} (w : Z) (k : nat) (self : SimpleFilter.t) : Prop :=
  exists (buf : matrix) (seed : vector),
    self = {| SimpleFilter._measurements := Some buf;
              SimpleFilter._initial_state_mean := Some seed;
              SimpleFilter._kf := None;
              SimpleFilter._window_length := w;
              SimpleFilter._previous_mean := None;
              SimpleFilter._previous_covariance := None |}
    /\ length buf = k
    /\ ncols buf = 3%nat
    /\ Forall (fun r => length r = 3%nat) buf.

(** ** Further inputs and state predicates *)

(** A quaternion that is not of unit length: [2 (w y - x z)] is 2. *)
Definition overlong : Quaternion := {| qx := 0; qy := 1; qz := 0; qw := 1 |}.

(** The rotation by [d] degrees about the z axis (ENU: counter-clockwise
    from east). *)
Definition yaw_quaternion (d : R) : Quaternion :=
  {| qx := 0; qy := 0; qz := sin (d * PI / 360); qw := cos (d * PI / 360) |}.

(** The quaternion of the same rotation with every component negated. *)
Definition antipode (q : Quaternion) : Quaternion :=
  {| qx := - qx q; qy := - qy q; qz := - qz q; qw := - qw q |}.

(** A 2x2 query image and nodes holding an orthoimage: the 4x4 stack of
    three channels, and an array without a channel axis. *)
Definition query_2x2 : Image :=
  {| img_stamp := 42; frame_id := String.EmptyString;
     img := {| shape := [2; 2]%Z; data := [] |} |}.

Definition node_with_orthoimage : TransformNode.t :=
  {| TransformNode.max_pitch := Some TransformNode.ROS_D_MISC_MAX_PITCH;
     TransformNode.min_match_altitude :=
       Some TransformNode.ROS_D_MISC_MIN_MATCH_ALTITUDE;
     TransformNode.orthoimage := Some (TransformNode.ctx_orthoimage context_60_24);
     TransformNode.camera_geopose := Some geopose_60_24;
     TransformNode.image := Some query_2x2;
     TransformNode.altitude := None |}.

Definition node_with_flat_orthoimage : TransformNode.t :=
  {| TransformNode.max_pitch := None;
     TransformNode.min_match_altitude := None;
     TransformNode.orthoimage := Some query_2x2;
     TransformNode.camera_geopose := None;
     TransformNode.image := None;
     TransformNode.altitude := None |}.

(** pykalman's contract on the shapes [filter_update] gives back for a
    six-dimensional mean and a 6x6 covariance. *)
Class PyKalmanUpdateShapes (K : PyKalman) : Prop := {
  filter_update_mean_shape :
    forall kf mean covariance z,
      length mean = 6%nat -> has_shape 6 6 covariance = true ->
      length (fst (filter_update kf mean covariance z)) = 6%nat;
  filter_update_covariance_shape :
    forall kf mean covariance z,
      length mean = 6%nat -> has_shape 6 6 covariance = true ->
      has_shape 6 6 (snd (filter_update kf mean covariance z)) = true
}.

(** The smoother once the filter exists: the buffer is full and a
    previous mean and covariance are held. *)
Definition primed {K : PyKalman} (w : Z) (buf : matrix) (kf : KalmanFilter)
    (self : SimpleFilter.t) : Prop :=
  exists (seed : option vector) (mean : vector) (covariance : matrix),
    self = {| SimpleFilter._measurements := Some buf;
              SimpleFilter._initial_state_mean := seed;
              SimpleFilter._kf := Some kf;
              SimpleFilter._window_length := w;
              SimpleFilter._previous_mean := Some mean;
              SimpleFilter._previous_covariance := Some covariance |}
    /\ (w <= Z.of_nat (length buf))%Z
    /\ (0 < length buf)%nat
    /\ length mean = 6%nat
    /\ has_shape 6 6 covariance = true.

(** An estimate as [update] returns it: three coordinates and three
    standard deviations. *)
Definition estimate_shape (e : vector * list float64) : Prop :=
  length (fst e) = 3%nat /\ length (snd e) = 3%nat.

(** * Properties *)

(** ** Comparisons and arithmetic *)

Lemma Rltb_true (a b : R) : a < b -> Rltb a b = true.
Proof. intros H. unfold Rltb. destruct (Rlt_dec a b); [reflexivity | contradiction]. Qed.

Lemma Rltb_false (a b : R) : b <= a -> Rltb a b = false.
Proof. intros H. unfold Rltb. destruct (Rlt_dec a b); [lra | reflexivity]. Qed.

Lemma py_mod_range (x y : R) : 0 < y -> 0 <= py_mod x y < y.
Proof.
  intros Hy. unfold py_mod.
  destruct (base_Int_part (x / y)) as [Hlo Hhi].
  set (k := IZR (Int_part (x / y))) in *.
  assert (Hx : x = x / y * y) by (field; lra).
  split.
  - assert (k * y <= x / y * y) by (apply Rmult_le_compat_r; lra). lra.
  - assert (x / y * y < (k + 1) * y) by (apply Rmult_lt_compat_r; lra). lra.
Qed.

Lemma py_int_floor (x : R) (z : Z) : IZR z <= x < IZR z + 1 -> 0 <= x -> py_int x = z.
Proof.
  intros H H0. unfold py_int. destruct (Rle_dec 0 x); [| contradiction].
  symmetry. apply Int_part_spec. lra.
Qed.

Lemma arcsin_one : np.arcsin 1 = Fin (PI / 2).
Proof.
  unfold np.arcsin.
  destruct (Rle_dec (-1) 1); [| lra].
  destruct (Rle_dec 1 1); [| lra].
  now rewrite asin_1.
Qed.

Lemma nadir_sine : 2 * (qw nadir * qy nadir - qx nadir * qz nadir) = 1.
Proof.
  simpl. assert (H : R_sqrt.sqrt 2 * R_sqrt.sqrt 2 = 2) by (apply sqrt_sqrt; lra).
  nra.
Qed.

Lemma off_nadir_pitch_of_sine_one (q : Quaternion) :
  2 * (qw q * qy q - qx q * qz q) = 1 -> TransformNode._off_nadir_pitch q = Fin 0.
Proof.
  intros H. unfold TransformNode._off_nadir_pitch. rewrite H, arcsin_one.
  simpl. f_equal. unfold np.pi, np.degrees. field. apply PI_neq0.
Qed.

Lemma nadir_pitch_not_too_high (max_pitch : Z) :
  (0 <= max_pitch)%Z ->
  TransformNode._camera_roll_or_pitch_too_high (node_with_camera nadir) max_pitch = false.
Proof.
  intros H. unfold TransformNode._camera_roll_or_pitch_too_high. simpl.
  rewrite (off_nadir_pitch_of_sine_one nadir nadir_sine).
  unfold float_gt, float_lt, of_int. rewrite Rltb_false; [reflexivity |].
  apply IZR_le in H. exact H.
Qed.

(** ** Admission gate *)

(** C7.  The off-nadir pitch of a quaternion is 90 degrees minus the
    arcsine of [2 (w y - x z)] in degrees; it is 0 for a quaternion whose
    pitch is straight down (the sine is 1); and without a camera
    orientation the gate rejects. *)
Theorem off_nadir_pitch_formula :
  (forall q : Quaternion,
      TransformNode._off_nadir_pitch q =
      float_sub (Fin 90)
        (float_map np.degrees (np.arcsin (2 * (qw q * qy q - qx q * qz q)))))
  /\ (forall q : Quaternion,
         2 * (qw q * qy q - qx q * qz q) = 1 ->
         TransformNode._off_nadir_pitch q = Fin 0)
  /\ (forall (self : TransformNode.t) (altitude : Altitude) (max_pitch min_alt : Z),
         TransformNode.camera_geopose self = None ->
         TransformNode._camera_roll_or_pitch_too_high self max_pitch = true
         /\ TransformNode._should_estimate self altitude max_pitch min_alt
            = Returned false).
Proof.
  split; [| split].
  - intros q. unfold TransformNode._off_nadir_pitch.
    destruct (np.arcsin (2 * (qw q * qy q - qx q * qz q))) as [| a]; simpl.
    + reflexivity.
    + f_equal. unfold np.pi, np.degrees. field. apply PI_neq0.
  - exact off_nadir_pitch_of_sine_one.
  - intros self altitude max_pitch min_alt Hcam.
    assert (Hhigh : TransformNode._camera_roll_or_pitch_too_high self max_pitch = true)
      by (unfold TransformNode._camera_roll_or_pitch_too_high; now rewrite Hcam).
    split; [exact Hhigh |].
    unfold TransformNode._should_estimate. now rewrite Hhigh.
Qed.

Lemma off_nadir_pitch_formula_witness :
  2 * (qw nadir * qy nadir - qx nadir * qz nadir) = 1
  /\ TransformNode._off_nadir_pitch nadir = Fin 0.
Proof.
  split.
  - exact nadir_sine.
  - exact (proj1 (proj2 off_nadir_pitch_formula) nadir nadir_sine).
Defined.

(** C4, as the code has it.  For a minimum altitude [m > 0] and a camera
    within the pitch limit, the gate rejects an altitude above ground
    strictly below [m] and accepts one that is [m] or more, so at [m]
    plus any positive epsilon. *)
Theorem gate_altitude_threshold
    (self : TransformNode.t) (altitude : Altitude) (max_pitch min_alt : Z) (a : R) :
  TransformNode._camera_roll_or_pitch_too_high self max_pitch = false ->
  (0 < min_alt)%Z ->
  terrain altitude = PyFloat (Fin a) ->
  (a < IZR min_alt ->
   TransformNode._should_estimate self altitude max_pitch min_alt = Returned false)
  /\ (IZR min_alt <= a ->
      TransformNode._should_estimate self altitude max_pitch min_alt = Returned true).
Proof.
  intros Hpitch Hmin Hterrain.
  unfold TransformNode._should_estimate. rewrite Hpitch, Hterrain.
  apply Z.ltb_lt in Hmin. rewrite Hmin. simpl. unfold of_int.
  split; intros Ha.
  - now rewrite Rltb_true.
  - now rewrite Rltb_false.
Qed.

Lemma gate_altitude_threshold_witness :
  TransformNode._should_estimate (node_with_camera nadir)
    (altitude_agl (PyFloat (Fin (80 + 1 / 1000)))) 30 80 = Returned true.
Proof.
  apply (gate_altitude_threshold (node_with_camera nadir)
           (altitude_agl (PyFloat (Fin (80 + 1 / 1000)))) 30 80 (80 + 1 / 1000)).
  - apply nadir_pitch_not_too_high. lia.
  - lia.
  - reflexivity.
  - lra.
Defined.

(** C4, as stated, fails at the threshold itself: with the minimum
    altitude 80 and the altitude exactly 80 the gate accepts. *)
Lemma gate_accepts_at_threshold :
  TransformNode._should_estimate (node_with_camera nadir)
    (altitude_agl (PyFloat (Fin 80))) 30 80 = Returned true
  /\ TransformNode._should_estimate (node_with_camera nadir)
       (altitude_agl (PyFloat (Fin 80))) 30 80 <> Returned false.
Proof.
  assert (H : TransformNode._should_estimate (node_with_camera nadir)
                (altitude_agl (PyFloat (Fin 80))) 30 80 = Returned true).
  { unfold TransformNode._should_estimate.
    rewrite nadir_pitch_not_too_high by lia. simpl.
    unfold of_int. rewrite Rltb_false by lra. reflexivity. }
  split; [exact H | rewrite H; discriminate].
Qed.

(** C5.  The gate rejects the object [np.nan], but a NaN altitude held
    by any other float object passes both altitude checks: the gate
    accepts it. *)
Theorem gate_accepts_nan_altitude :
  TransformNode._should_estimate (node_with_camera nadir)
    (altitude_agl np_nan) 30 80 = Returned false
  /\ TransformNode._should_estimate (node_with_camera nadir)
       (altitude_agl (PyFloat NaN)) 30 80 = Returned true.
Proof.
  unfold TransformNode._should_estimate.
  rewrite nadir_pitch_not_too_high by lia. simpl. split; reflexivity.
Qed.

(** ** Heading and UTM zone *)

(** C10.  The heading extracted from a quaternion lies in [0, 360). *)
Theorem extract_yaw_range (q : Quaternion) :
  0 <= TransformNode._extract_yaw q < 360.
Proof. unfold TransformNode._extract_yaw. apply py_mod_range. lra. Qed.

(** C6.  For a longitude in [-180, 180) the zone is
    [floor ((longitude + 180) / 6) + 1], that is the integer [z] with
    [z - 1 <= (longitude + 180) / 6 < z]; longitudes -180, 179.9 and 0
    are in zones 1, 60 and 31. *)
Theorem utm_zone_formula :
  (forall longitude : R,
      -180 <= longitude < 180 ->
      let zone := TransformNode._determine_utm_zone longitude in
      zone = (Int_part ((longitude + 180) / 6) + 1)%Z
      /\ IZR zone - 1 <= (longitude + 180) / 6 < IZR zone)
  /\ TransformNode._determine_utm_zone (-180) = 1%Z
  /\ TransformNode._determine_utm_zone (1799 / 10) = 60%Z
  /\ TransformNode._determine_utm_zone 0 = 31%Z.
Proof.
  split; [| repeat split].
  - intros lon Hlon zone. subst zone.
    unfold TransformNode._determine_utm_zone, py_int.
    destruct (Rle_dec 0 ((lon + 180) / 6)) as [_ | Hneg]; [| exfalso; lra].
    split; [reflexivity |].
    rewrite plus_IZR. destruct (base_Int_part ((lon + 180) / 6)). lra.
  - unfold TransformNode._determine_utm_zone.
    rewrite (py_int_floor _ 0); [reflexivity | simpl; lra | lra].
  - unfold TransformNode._determine_utm_zone.
    rewrite (py_int_floor _ 59); [reflexivity | simpl; lra | lra].
  - unfold TransformNode._determine_utm_zone.
    rewrite (py_int_floor _ 30); [reflexivity | simpl; lra | lra].
Qed.

Lemma utm_zone_formula_witness :
  -180 <= 24 < 180
  /\ IZR (TransformNode._determine_utm_zone 24) - 1 <= (24 + 180) / 6
     < IZR (TransformNode._determine_utm_zone 24).
Proof.
  assert (H : -180 <= 24 < 180) by lra.
  split; [exact H |].
  exact (proj2 (proj1 utm_zone_formula 24 H)).
Defined.

(** ** Image aligner *)

Ltac run_arrays :=
  cbv [TransformNode._rotate_and_crop_image TransformNode.warp_affine_2d
       TransformNode._get_affine_matrix TransformNode.affine_3d_composed
       TransformNode.translation_hack TransformNode._get_rotation_matrix
       TransformNode._get_translation_matrix cv2.getRotationMatrix2D
       bind assert getitem nth_error has_shape forallb andb Nat.eqb length
       vstack matmul dot inner column transpose neg eye block
       set_block set_column set_nth overwrite delete_nth
       ncols nrows map seq combine fold_right nth firstn rev app fst snd].

(** C2, as the code has it.  The transform returned with the aligned
    raster is the padding to 4x4 of the very affine handed to the warp:
    the rotation about the centre with the negated and axis-swapped crop
    translation [(-dy, -dx)].  The composition with the crop translation
    [(dx, dy)] is computed first and then overwritten. *)
Theorem aligner_returns_warp_transform {E : Externals}
    (image : ndarray) (degrees : R) (crop_height crop_width h w : Z) (rest : list Z) :
  shape image = h :: w :: rest ->
  let a := cos (degrees * PI / 180) in
  let b := sin (degrees * PI / 180) in
  let rx := (1 - a) * IZR (h / 2) - b * IZR (w / 2) in
  let ry := b * IZR (h / 2) + (1 - a) * IZR (w / 2) in
  let dx := IZR ((h - crop_height) / 2) in
  let dy := IZR ((w - crop_width) / 2) in
  TransformNode._rotate_and_crop_image image degrees (crop_height, crop_width) =
  Returned (warpAffine image [ [a; b; rx - dy]; [- b; a; ry - dx] ]
              (crop_width, crop_height),
            [ [a; b; 0; rx - dy]; [- b; a; 0; ry - dx]; [0; 0; 1; 0]; [0; 0; 0; 1] ])
  /\ exists r t : matrix,
      TransformNode.affine_3d_composed image degrees crop_height crop_width =
      Returned (r, t,
                [ [a; b; 0; rx + dx]; [- b; a; 0; ry + dy]; [0; 0; 1; 0]; [0; 0; 0; 1] ]).
Proof.
  intros Hshape a b rx ry dx dy. subst a b rx ry dx dy. split.
  - unfold TransformNode._rotate_and_crop_image, TransformNode._get_affine_matrix,
      TransformNode.affine_3d_composed, TransformNode._get_rotation_matrix.
    rewrite Hshape. run_arrays.
    repeat (f_equal; try ring).
  - unfold TransformNode.affine_3d_composed, TransformNode._get_rotation_matrix.
    rewrite Hshape. run_arrays.
    eexists. eexists. repeat (f_equal; try ring).
Qed.

Lemma aligner_returns_warp_transform_witness :
  shape raster_4x4 = [4; 4; 3]%Z
  /\ TransformNode._rotate_and_crop_image raster_4x4 30 (2, 2)%Z =
     Returned
       (blank 2 2 3,
        [ [cos (30 * PI / 180); sin (30 * PI / 180); 0;
           (1 - cos (30 * PI / 180)) * 2 - sin (30 * PI / 180) * 2 - 1];
          [- sin (30 * PI / 180); cos (30 * PI / 180); 0;
           sin (30 * PI / 180) * 2 + (1 - cos (30 * PI / 180)) * 2 - 1];
          [0; 0; 1; 0]; [0; 0; 0; 1] ]).
Proof.
  split; [reflexivity |].
  exact (proj1 (aligner_returns_warp_transform (E := blank_externals)
                  raster_4x4 30 2 2 4 4 [3%Z] eq_refl)).
Defined.

(** C2, as stated, fails: for a 4x4 raster cropped to 2x2 the transform
    returned with the raster is not the composition of the rotation with
    the crop translation; the two differ in the translation column. *)
Lemma aligner_transform_is_not_the_composition :
  exists (r t composed returned : matrix) (raster : ndarray),
    TransformNode.affine_3d_composed raster_4x4 30 2 2 = Returned (r, t, composed)
    /\ TransformNode._rotate_and_crop_image raster_4x4 30 (2, 2)%Z
       = Returned (raster, returned)
    /\ returned <> composed.
Proof.
  do 5 eexists. split; [| split].
  - unfold TransformNode.affine_3d_composed, TransformNode._get_rotation_matrix.
    run_arrays. reflexivity.
  - run_arrays. reflexivity.
  - intros H.
    apply (f_equal (fun m : matrix => nth 3 (nth 0 m []) 0)) in H.
    cbv [nth] in H.
    change ((4 - 2) / 2)%Z with 1%Z in H. lra.
Qed.

(** C8, as the code has it.  A crop larger than the raster is not
    checked for: the offset of the axis in excess is negative under floor
    division and the aligner returns a raster of the crop size, warped
    with the affine it returns, like for any other size. *)
Theorem aligner_accepts_oversized_crop {E : Externals}
    (image : ndarray) (degrees : R) (crop_height crop_width h w : Z) (rest : list Z) :
  shape image = h :: w :: rest ->
  (h < crop_height \/ w < crop_width)%Z ->
  ((h - crop_height) / 2 < 0 \/ (w - crop_width) / 2 < 0)%Z
  /\ exists affine : matrix,
      TransformNode._get_affine_matrix image degrees crop_height crop_width
      = Returned affine
      /\ TransformNode._rotate_and_crop_image image degrees (crop_height, crop_width)
         = Returned (warpAffine image (TransformNode.warp_affine_2d affine)
                       (crop_width, crop_height),
                     affine).
Proof.
  intros Hshape Hover. split.
  - destruct Hover as [Hh | Hw]; [left | right];
      apply Z.div_lt_upper_bound; lia.
  - unfold TransformNode._rotate_and_crop_image.
    assert (Haff : exists affine,
               TransformNode._get_affine_matrix image degrees crop_height crop_width
               = Returned affine).
    { unfold TransformNode._get_affine_matrix, TransformNode.affine_3d_composed,
        TransformNode._get_rotation_matrix.
      rewrite Hshape. run_arrays. eexists. reflexivity. }
    destruct Haff as [affine Haff]. exists affine. split; [exact Haff |].
    cbn [fst snd]. rewrite Haff. reflexivity.
Qed.

Lemma aligner_accepts_oversized_crop_witness :
  (2 < 4 \/ 2 < 4)%Z
  /\ exists affine : matrix,
      TransformNode._rotate_and_crop_image raster_2x2 0 (4, 4)%Z
      = Returned (blank 4 4 3, affine).
Proof.
  assert (H : (2 < 4 \/ 2 < 4)%Z) by (left; lia).
  split; [exact H |].
  destruct (proj2 (aligner_accepts_oversized_crop (E := blank_externals)
                     raster_2x2 0 4 4 2 2 [3%Z] eq_refl H))
    as [affine [_ Hrun]].
  exists affine. exact Hrun.
Defined.

(** C8, as stated, fails: a 4x4 crop of a 2x2 raster is not rejected,
    the aligner returns a raster and a transform. *)
Lemma oversized_crop_is_not_rejected :
  (2 < 4)%Z
  /\ (exists out : ndarray * matrix,
         TransformNode._rotate_and_crop_image raster_2x2 0 (4, 4)%Z = Returned out)
  /\ (forall e : exn,
         TransformNode._rotate_and_crop_image raster_2x2 0 (4, 4)%Z <> Raised e).
Proof.
  split; [lia |].
  assert (H : exists out : ndarray * matrix,
             TransformNode._rotate_and_crop_image raster_2x2 0 (4, 4)%Z = Returned out).
  { run_arrays. eexists. reflexivity. }
  split; [exact H |].
  destruct H as [out H]. intros e. rewrite H. discriminate.
Qed.

(** ** Geopose reconstruction *)




Lemma pnp_image_stops_at_query_array {E : Externals}
    (self : TransformNode.t) (image orthoimage o : Image)
    (context : TransformNode._PoseEstimationContext)
    (h w qh qw : Z) (rest qrest : list Z) :
  TransformNode.orthoimage self = Some o ->
  shape (img o) = h :: w :: 3%Z :: rest ->
  shape (img image) = qh :: qw :: qrest ->
  TransformNode._pnp_image self image orthoimage context = Raised NameError.
Proof.
  intros Ho Hshape Hquery. unfold TransformNode._pnp_image. cbv zeta.
  rewrite Ho. cbn [bind]. rewrite Hshape, Hquery.
  cbn [bind getitem nth_error assert Z.eqb Pos.eqb].
  unfold TransformNode._rotate_and_crop_image. cbn [fst snd].
  assert (Haff : exists affine,
             TransformNode._get_affine_matrix (img o)
               (TransformNode._extract_yaw
                  (orientation (pose (TransformNode.ctx_camera_geopose context))))
               qh qw = Returned affine).
  { unfold TransformNode._get_affine_matrix, TransformNode.affine_3d_composed,
      TransformNode._get_rotation_matrix.
    rewrite Hshape. run_arrays. eexists. reflexivity. }
  destruct Haff as [affine Haff]. rewrite Haff. reflexivity.
Qed.


(** ** Position smoother *)

Lemma refuse_one_row_passes {A : Type} (ms : matrix) (a : A) :
  (2 <= nrows ms)%nat -> refuse_one_row ms a = Returned a.
Proof.
  intros H. destruct ms as [| r0 [| r1 ms]]; simpl in H; try lia; reflexivity.
Qed.

Lemma echo_kalman_shapes : PyKalmanShapes echo_kalman.
Proof.
  constructor; cbn [em filter echo_kalman]; intros kf ms.
  - intros n Hrows _. exists kf. now apply refuse_one_row_passes.
  - intros Hrows _. do 2 eexists. split; [now apply refuse_one_row_passes |].
    split; [apply length_map |]. split; [apply length_map |]. split.
    + intros m Hin. apply in_map_iff in Hin. destruct Hin as (row & <- & _).
      reflexivity.
    + intros c Hin. apply in_map_iff in Hin. destruct Hin as (row & <- & _).
      reflexivity.
Qed.

Lemma echo_kalman_one_row : PyKalmanOneRow echo_kalman.
Proof.
  constructor. intros kf row n Hrow. cbn [em echo_kalman refuse_one_row].
  apply Nat.ltb_lt in Hrow. now rewrite Hrow.
Qed.

Lemma last_item_returns {A : Type} (l : list A) :
  (0 < length l)%nat -> exists x, last_item l = Returned x /\ In x l.
Proof.
  intros H. unfold last_item.
  destruct (rev l) as [| x l'] eqn:Hrev.
  - apply (f_equal (@length A)) in Hrev. rewrite length_rev in Hrev.
    simpl in Hrev. lia.
  - exists x. split; [reflexivity |].
    apply in_rev. rewrite Hrev. now left.
Qed.

Lemma every_other_six {A : Type} (l : list A) :
  length l = 6%nat -> length (every_other l) = 3%nat.
Proof.
  intros H. do 7 (destruct l as [| ? l]; try discriminate H). reflexivity.
Qed.

Lemma diagonal_six (c : matrix) :
  has_shape 6 6 c = true -> length (diagonal c) = 6%nat.
Proof.
  unfold has_shape, diagonal. intros H.
  apply andb_prop in H. destruct H as [Hrows Hcols].
  apply Nat.eqb_eq in Hrows.
  rewrite length_map, length_seq. unfold nrows, ncols. rewrite Hrows.
  destruct c as [| row c]; [discriminate Hrows |].
  simpl in Hcols. apply andb_prop in Hcols. destruct Hcols as [Hrow _].
  apply Nat.eqb_eq in Hrow. now rewrite Hrow.
Qed.

Section Smoother.

Context {K : PyKalman}.

Lemma run_app (self : SimpleFilter.t) (l1 l2 : list matrix) :
  SimpleFilter.run self (l1 ++ l2) =
  (fst (SimpleFilter.run (fst (SimpleFilter.run self l1)) l2),
   snd (SimpleFilter.run self l1)
   ++ snd (SimpleFilter.run (fst (SimpleFilter.run self l1)) l2)).
Proof.
  revert self. induction l1 as [| m l1 IH]; intros self; simpl.
  - now destruct (SimpleFilter.run self l2).
  - destruct (SimpleFilter.update self m) as [self1 out].
    rewrite IH. destruct (SimpleFilter.run self1 l1) as [self2 outs]. simpl.
    reflexivity.
Qed.

Lemma run_cons (self : SimpleFilter.t) (m : matrix) (ms : list matrix) :
  SimpleFilter.run self (m :: ms) =
  (fst (SimpleFilter.run (fst (SimpleFilter.update self m)) ms),
   snd (SimpleFilter.update self m)
   :: snd (SimpleFilter.run (fst (SimpleFilter.update self m)) ms)).
Proof.
  cbn [SimpleFilter.run].
  destruct (SimpleFilter.update self m) as [self1 out]. cbn [fst snd].
  destruct (SimpleFilter.run self1 ms) as [self2 outs]. reflexivity.
Qed.

Lemma first_call_buffers (w : Z) (m : matrix) :
  has_shape 1 3 m = true ->
  buffering w 1 (fst (SimpleFilter.update (SimpleFilter.__init__ w) m))
  /\ snd (SimpleFilter.update (SimpleFilter.__init__ w) m) = Returned None.
Proof.
  intros H. unfold has_shape in H. simpl in H.
  destruct m as [| row [| ? ?]]; try discriminate H.
  simpl in H. rewrite andb_true_r in H. apply Nat.eqb_eq in H.
  do 4 (destruct row as [| ? row]; try discriminate H).
  split; [| reflexivity].
  simpl. eexists. eexists. split; [reflexivity |]. split; [reflexivity |].
  split; [reflexivity |]. repeat constructor.
Qed.

Lemma buffering_call (w : Z) (k : nat) (self : SimpleFilter.t) (m : matrix) :
  buffering w k self ->
  (Z.of_nat k < w)%Z ->
  has_shape 1 3 m = true ->
  buffering w (S k) (fst (SimpleFilter.update self m))
  /\ snd (SimpleFilter.update self m) = Returned None.
Proof.
  intros (buf & seed & -> & Hlen & Hcols & Hrows) Hk Hm.
  unfold has_shape in Hm. simpl in Hm.
  destruct m as [| row [| ? ?]]; try discriminate Hm.
  simpl in Hm. rewrite andb_true_r in Hm. apply Nat.eqb_eq in Hm.
  unfold SimpleFilter.update. cbn [SimpleFilter._measurements SimpleFilter._window_length].
  rewrite Hlen. apply Z.ltb_lt in Hk. rewrite Hk.
  unfold vstack. rewrite Hcols. cbn [ncols]. rewrite Hm. cbn [Nat.eqb].
  split; [| reflexivity].
  cbn [fst]. exists (buf ++ [row]), seed. split; [reflexivity |]. split; [| split].
  - rewrite length_app. simpl. lia.
  - destruct buf; [discriminate Hcols | exact Hcols].
  - apply Forall_app. split; [exact Hrows | repeat constructor; exact Hm].
Qed.

Lemma buffering_run (w : Z) (ms : list matrix) :
  forall (k : nat) (self : SimpleFilter.t),
    buffering w k self ->
    (Z.of_nat (k + length ms) <= w)%Z ->
    Forall (fun m => has_shape 1 3 m = true) ms ->
    buffering w (k + length ms) (fst (SimpleFilter.run self ms))
    /\ snd (SimpleFilter.run self ms) = repeat (Returned None) (length ms).
Proof.
  induction ms as [| m ms IH]; intros k self Hbuf Hk Hshapes.
  - simpl. rewrite Nat.add_0_r. split; [exact Hbuf | reflexivity].
  - inversion Hshapes as [| ? ? Hm Hms]; subst.
    simpl in Hk.
    destruct (buffering_call w k self m Hbuf ltac:(lia) Hm) as [Hbuf1 Hout1].
    simpl. destruct (SimpleFilter.update self m) as [self1 out1].
    simpl in Hbuf1, Hout1. subst out1.
    destruct (IH (S k) self1 Hbuf1 ltac:(lia) Hms) as [Hbuf2 Houts].
    destruct (SimpleFilter.run self1 ms) as [self2 outs].
    simpl in Hbuf2, Houts. simpl. subst outs.
    split; [| reflexivity].
    replace (k + S (length ms))%nat with (S k + length ms)%nat by lia.
    exact Hbuf2.
Qed.

Lemma estimate_shapes (mean : vector) (covariance : matrix) :
  length mean = 6%nat ->
  has_shape 6 6 covariance = true ->
  (_ <- assert_shape (every_other mean) 3 ;;
   _ <- assert_shape (map np.sqrt (every_other (diagonal covariance))) 3 ;;
   Returned (Some (every_other mean, map np.sqrt (every_other (diagonal covariance)))))
  = Returned (Some (every_other mean, map np.sqrt (every_other (diagonal covariance))))
  /\ length (every_other mean) = 3%nat
  /\ length (map np.sqrt (every_other (diagonal covariance))) = 3%nat.
Proof.
  intros Hmean Hcov.
  assert (Hxyz : length (every_other mean) = 3%nat) by now apply every_other_six.
  assert (Hsd : length (map np.sqrt (every_other (diagonal covariance))) = 3%nat).
  { rewrite length_map. apply every_other_six. now apply diagonal_six. }
  split; [| split; assumption].
  unfold assert_shape. rewrite Hxyz, Hsd. reflexivity.
Qed.

Lemma priming_update {S : PyKalmanShapes K}
    (w : Z) (k : nat) (self : SimpleFilter.t) (m : matrix) :
  buffering w k self ->
  (2 <= k)%nat ->
  (w <= Z.of_nat k)%Z ->
  exists (buf : matrix) (seed : vector) (kf : KalmanFilter)
         (mean : vector) (covariance : matrix),
    SimpleFilter.update self m
    = ({| SimpleFilter._measurements := Some buf;
          SimpleFilter._initial_state_mean := Some seed;
          SimpleFilter._kf := Some kf;
          SimpleFilter._window_length := w;
          SimpleFilter._previous_mean := Some mean;
          SimpleFilter._previous_covariance := Some covariance |},
       Returned (Some (every_other mean,
                       map np.sqrt (every_other (diagonal covariance)))))
    /\ length buf = k
    /\ length mean = 6%nat
    /\ has_shape 6 6 covariance = true.
Proof.
  intros (buf & seed & -> & Hlen & Hcols & Hrows) Hk Hw.
  unfold SimpleFilter.update.
  cbn [SimpleFilter._measurements SimpleFilter._window_length].
  rewrite Hlen.
  replace (Z.of_nat k <? w)%Z with false by (symmetry; apply Z.ltb_ge; exact Hw).
  replace (0 <? k)%nat with true by (symmetry; apply Nat.ltb_lt; lia).
  cbn [negb]. unfold SimpleFilter.estimate.
  cbn [SimpleFilter._kf SimpleFilter._initial_state_mean].
  assert (Hnrows : (2 <= nrows buf)%nat) by (unfold nrows; lia).
  destruct (em_fits (new_KalmanFilter SimpleFilter._transition_matrix
                       SimpleFilter._observation_matrix (Some seed))
              buf 20%nat Hnrows Hrows) as [kf Hem].
  rewrite Hem.
  destruct (filter_runs kf buf Hnrows Hrows)
    as (means & covariances & Hfilter & Hmeans & Hcovs & Hmean6 & Hcov6).
  rewrite Hfilter. unfold nrows in Hmeans, Hcovs.
  destruct (last_item_returns means ltac:(lia)) as (mean & Hmean & Hin_mean).
  destruct (last_item_returns covariances ltac:(lia)) as (cov & Hcov & Hin_cov).
  rewrite Hmean, Hcov. cbn [bind].
  destruct (estimate_shapes mean cov (Hmean6 mean Hin_mean) (Hcov6 cov Hin_cov))
    as (Hret & _).
  rewrite Hret.
  exists buf, seed, kf, mean, cov.
  split; [reflexivity |]. split; [exact Hlen |].
  split; [exact (Hmean6 mean Hin_mean) | exact (Hcov6 cov Hin_cov)].
Qed.

Lemma priming_call {S : PyKalmanShapes K}
    (w : Z) (k : nat) (self : SimpleFilter.t) (m : matrix) :
  buffering w k self ->
  (2 <= k)%nat ->
  Z.of_nat k = w ->
  exists est : vector * list float64,
    snd (SimpleFilter.update self m) = Returned (Some est)
    /\ length (fst est) = 3%nat
    /\ length (snd est) = 3%nat.
Proof.
  intros Hbuf Hk Hw.
  destruct (priming_update w k self m Hbuf Hk ltac:(lia))
    as (buf & seed & kf & mean & cov & Hupd & _ & Hmean6 & Hcov6).
  rewrite Hupd. eexists. split; [reflexivity |].
  exact (proj2 (estimate_shapes mean cov Hmean6 Hcov6)).
Qed.

End Smoother.

(** C1, as the code has it.  For a window length [w >= 2] and
    measurements of one row of three fed one per call, the first [w]
    calls return no output and call [w + 1] returns an estimate: three
    filtered coordinates with their three standard deviations.  pykalman
    is taken to fit and filter a buffer of two or more rows. *)
Theorem smoother_first_output {K : PyKalman} {S : PyKalmanShapes K}
    (w : Z) (ms : list matrix) (m : matrix) :
  (2 <= w)%Z ->
  Z.of_nat (length ms) = w ->
  Forall (fun x => has_shape 1 3 x = true) (ms ++ [m]) ->
  exists est : vector * list float64,
    snd (SimpleFilter.run (SimpleFilter.__init__ w) (ms ++ [m]))
    = repeat (Returned None) (length ms) ++ [Returned (Some est)]
    /\ length (fst est) = 3%nat
    /\ length (snd est) = 3%nat.
Proof.
  intros Hw Hlen Hshapes.
  apply Forall_app in Hshapes. destruct Hshapes as [Hms Hm].
  destruct ms as [| m0 ms]; [simpl in Hlen; lia |].
  inversion Hms as [| ? ? Hm0 Hms']; subst.
  rewrite run_app.
  cbn [snd fst].
  assert (Hrun : buffering (Z.of_nat (length (m0 :: ms))) (length (m0 :: ms))
                   (fst (SimpleFilter.run (SimpleFilter.__init__
                                             (Z.of_nat (length (m0 :: ms)))) (m0 :: ms)))
                 /\ snd (SimpleFilter.run (SimpleFilter.__init__
                                             (Z.of_nat (length (m0 :: ms)))) (m0 :: ms))
                    = repeat (Returned None) (length (m0 :: ms))).
  { set (w := Z.of_nat (length (m0 :: ms))) in *.
    destruct (first_call_buffers w m0 Hm0) as [Hbuf1 Hout1].
    cbn [SimpleFilter.run].
    destruct (SimpleFilter.update (SimpleFilter.__init__ w) m0) as [self1 out1].
    simpl in Hbuf1, Hout1. subst out1.
    destruct (buffering_run w ms 1 self1 Hbuf1) as [Hbuf2 Houts].
    - subst w. simpl length. lia.
    - exact Hms'.
    - destruct (SimpleFilter.run self1 ms) as [self2 outs].
      simpl in Hbuf2, Houts. subst outs. split; [exact Hbuf2 | reflexivity]. }
  destruct Hrun as [Hbuf Houts]. rewrite Houts.
  destruct (priming_call _ _ _ m Hbuf ltac:(lia) eq_refl)
    as (est & Hest & H3).
  exists est. split; [| exact H3].
  f_equal. simpl.
  destruct (SimpleFilter.update _ m) as [self' out]. simpl in Hest. subst out.
  reflexivity.
Qed.

Lemma smoother_first_output_witness :
  exists est : vector * list float64,
    snd (SimpleFilter.run (SimpleFilter.__init__ 2)
           [observation 1 2 3; observation 2 3 4; observation 3 4 5])
    = [Returned None; Returned None; Returned (Some est)].
Proof.
  destruct (smoother_first_output (K := echo_kalman) (S := echo_kalman_shapes) 2
              [observation 1 2 3; observation 2 3 4] (observation 3 4 5))
    as (est & Hrun & _).
  - lia.
  - reflexivity.
  - repeat constructor.
  - exists est. exact Hrun.
Defined.

(** C1, as stated, fails: with a window of 2 the second call still
    returns no output. *)
Lemma window_th_call_returns_nothing :
  snd (SimpleFilter.run (K := echo_kalman) (SimpleFilter.__init__ 2)
         [observation 1 2 3; observation 2 3 4])
  = [Returned None; Returned None]
  /\ ~ (exists est : vector * list float64,
           nth_error
             (snd (SimpleFilter.run (K := echo_kalman) (SimpleFilter.__init__ 2)
                     [observation 1 2 3; observation 2 3 4])) 1
           = Some (Returned (Some est))).
Proof.
  split; [reflexivity |].
  intros [est H]. discriminate H.
Qed.

(** C9.  On the call that builds the filter (the buffer is full and no
    filter exists yet) the state left and the value returned are the
    same whatever the measurement passed, and the buffer is left as it
    was: the measurement of that call is neither stored nor used. *)
Theorem priming_call_ignores_measurement {K : PyKalman}
    (self : SimpleFilter.t) (buf : matrix) (measurement other : matrix) :
  SimpleFilter._measurements self = Some buf ->
  (SimpleFilter._window_length self <= Z.of_nat (length buf))%Z ->
  SimpleFilter._kf self = None ->
  SimpleFilter.update self measurement = SimpleFilter.update self other
  /\ SimpleFilter._measurements (fst (SimpleFilter.update self measurement)) = Some buf.
Proof.
  intros Hbuf Hfull Hkf.
  unfold SimpleFilter.update. rewrite Hbuf.
  replace (Z.of_nat (length buf) <? SimpleFilter._window_length self)%Z with false
    by (symmetry; apply Z.ltb_ge; exact Hfull).
  destruct (negb (0 <? length buf)%nat).
  - split; [reflexivity | exact Hbuf].
  - unfold SimpleFilter.estimate. rewrite Hkf.
    split; [reflexivity |].
    destruct (em _ buf 20%nat) as [kf |]; [| exact Hbuf].
    destruct (filter kf buf) as [[means covariances] |]; [| exact Hbuf].
    destruct (last_item means) as [mean |]; [| exact Hbuf].
    destruct (last_item covariances) as [covariance |]; exact Hbuf.
Qed.

Lemma priming_call_ignores_measurement_witness :
  SimpleFilter.update
    (fst (SimpleFilter.run (K := echo_kalman) (SimpleFilter.__init__ 2)
            [observation 1 2 3; observation 2 3 4]))
    (observation 3 4 5)
  = SimpleFilter.update
      (fst (SimpleFilter.run (K := echo_kalman) (SimpleFilter.__init__ 2)
              [observation 1 2 3; observation 2 3 4]))
      (observation 9 9 9).
Proof.
  apply (priming_call_ignores_measurement (K := echo_kalman)
           (fst (SimpleFilter.run (K := echo_kalman) (SimpleFilter.__init__ 2)
                   [observation 1 2 3; observation 2 3 4]))
           [ [1; 2; 3]; [2; 3; 4] ] (observation 3 4 5) (observation 9 9 9)).
  - reflexivity.
  - simpl. lia.
  - reflexivity.
Defined.

(** * Further properties *)


Lemma affine_value (image : ndarray) (degrees : R) (ch cw h w : Z) (rest : list Z) :
  shape image = h :: w :: rest ->
  let a := cos (degrees * PI / 180) in
  let b := sin (degrees * PI / 180) in
  TransformNode._get_affine_matrix image degrees ch cw =
  Returned [ [a; b; 0; (1 - a) * IZR (h / 2) - b * IZR (w / 2) - IZR ((w - cw) / 2)];
             [- b; a; 0; b * IZR (h / 2) + (1 - a) * IZR (w / 2) - IZR ((h - ch) / 2)];
             [0; 0; 1; 0]; [0; 0; 0; 1] ].
Proof.
  intros Hshape a b. subst a b.
  unfold TransformNode._get_affine_matrix, TransformNode.affine_3d_composed,
    TransformNode._get_rotation_matrix.
  rewrite Hshape. run_arrays.
  repeat (f_equal; try ring).
Qed.

Lemma det_rigid (a b tx ty : R) :
  det [ [a; b; 0; tx]; [- b; a; 0; ty]; [0; 0; 1; 0]; [0; 0; 0; 1] ] = a * a + b * b.
Proof. cbv [det det_rows nrows sign Nat.even length map seq fold_right nth delete_nth]. ring. Qed.

Ltac split_rows :=
  repeat match goal with
         | |- Returned _ = Returned _ => apply f_equal
         | |- (_ :: _) = (_ :: _) => apply f_equal2
         | |- @nil _ = @nil _ => reflexivity
         end.

Lemma inv_rigid (a b tx ty : R) :
  a * a + b * b = 1 ->
  linalg.inv [ [a; b; 0; tx]; [- b; a; 0; ty]; [0; 0; 1; 0]; [0; 0; 0; 1] ]
  = Returned [ [a; - b; 0; - (a * tx - b * ty)];
               [b; a; 0; - (b * tx + a * ty)];
               [0; 0; 1; 0]; [0; 0; 0; 1] ].
Proof.
  intros H. unfold linalg.inv.
  rewrite det_rigid, H.
  cbv [has_shape nrows forallb andb Nat.eqb length].
  destruct (Req_dec_T 1 0) as [H10 | _]; [lra |].
  cbv [adjugate minor det det_rows nrows sign Nat.even length map seq fold_right nth
       delete_nth Nat.add].
  split_rows; try (field_simplify; nra).
Qed.

Lemma cos2_sin2 (x : R) : cos x * cos x + sin x * sin x = 1.
Proof. generalize (sin2_cos2 x). unfold Rsqr. lra. Qed.

(** X1.  The transform the aligner builds has determinant 1: its
    inversion never raises [LinAlgError]. *)
Theorem alignment_transform_is_invertible
    (image : ndarray) (degrees : R) (crop_height crop_width h w : Z) (rest : list Z) :
  shape image = h :: w :: rest ->
  exists affine inverse : matrix,
    TransformNode._get_affine_matrix image degrees crop_height crop_width
    = Returned affine
    /\ det affine = 1
    /\ linalg.inv affine = Returned inverse.
Proof.
  intros Hshape.
  pose proof (affine_value image degrees crop_height crop_width h w rest Hshape) as Haff.
  cbv zeta in Haff.
  pose proof (cos2_sin2 (degrees * PI / 180)) as Hunit.
  eexists. eexists. split; [exact Haff |]. split.
  - rewrite det_rigid. exact Hunit.
  - apply inv_rigid. exact Hunit.
Qed.

Lemma alignment_transform_is_invertible_witness :
  exists affine inverse : matrix,
    TransformNode._get_affine_matrix raster_4x4 30 2 2 = Returned affine
    /\ det affine = 1
    /\ linalg.inv affine = Returned inverse.
Proof.
  exact (alignment_transform_is_invertible raster_4x4 30 2 2 4 4 [3%Z] eq_refl).
Defined.

(** X2.  Mapping a homogeneous point through the alignment transform and
    then through its inverse, or the other way round, gives the point
    back. *)
Theorem alignment_round_trip
    (image : ndarray) (degrees : R) (crop_height crop_width h w : Z) (rest : list Z)
    (x y z u : R) :
  shape image = h :: w :: rest ->
  exists affine inverse : matrix,
    TransformNode._get_affine_matrix image degrees crop_height crop_width
    = Returned affine
    /\ linalg.inv affine = Returned inverse
    /\ (q <- matmul affine [ [x]; [y]; [z]; [u] ] ;; matmul inverse q)
       = Returned [ [x]; [y]; [z]; [u] ]
    /\ (q <- matmul inverse [ [x]; [y]; [z]; [u] ] ;; matmul affine q)
       = Returned [ [x]; [y]; [z]; [u] ].
Proof.
  intros Hshape.
  pose proof (affine_value image degrees crop_height crop_width h w rest Hshape) as Haff.
  cbv zeta in Haff.
  pose proof (cos2_sin2 (degrees * PI / 180)) as Hunit.
  eexists. eexists. split; [exact Haff |]. split; [apply inv_rigid; exact Hunit |].
  set (a := cos (degrees * PI / 180)) in *.
  set (b := sin (degrees * PI / 180)) in *.
  split.
  - cbv [bind matmul dot inner column forallb andb Nat.eqb nrows ncols length map seq
         combine fold_right nth fst snd].
    split_rows; first [ring | nsatz].
  - cbv [bind matmul dot inner column forallb andb Nat.eqb nrows ncols length map seq
         combine fold_right nth fst snd].
    split_rows; first [ring | nsatz].
Qed.

Lemma alignment_round_trip_witness :
  exists affine inverse : matrix,
    TransformNode._get_affine_matrix raster_4x4 30 2 2 = Returned affine
    /\ linalg.inv affine = Returned inverse
    /\ (q <- matmul affine [ [1]; [2]; [0]; [1] ] ;; matmul inverse q)
       = Returned [ [1]; [2]; [0]; [1] ]
    /\ (q <- matmul inverse [ [1]; [2]; [0]; [1] ] ;; matmul affine q)
       = Returned [ [1]; [2]; [0]; [1] ].
Proof.
  exact (alignment_round_trip raster_4x4 30 2 2 4 4 [3%Z] 1 2 0 1 eq_refl).
Defined.

(** X3.  For a sine term [2 (w y - x z)] within [-1, 1] the off-nadir
    pitch is a number between 0 and 180 degrees. *)
Theorem off_nadir_pitch_range (q : Quaternion) :
  -1 <= 2 * (qw q * qy q - qx q * qz q) <= 1 ->
  exists p : R, TransformNode._off_nadir_pitch q = Fin p /\ 0 <= p <= 180.
Proof.
  intros [Hlo Hhi]. unfold TransformNode._off_nadir_pitch, np.arcsin.
  destruct (Rle_dec (-1) (2 * (qw q * qy q - qx q * qz q))); [| contradiction].
  destruct (Rle_dec (2 * (qw q * qy q - qx q * qz q)) 1); [| contradiction].
  simpl. eexists. split; [reflexivity |].
  destruct (asin_bound (2 * (qw q * qy q - qx q * qz q))) as [Ha Hb].
  unfold np.pi, np.degrees.
  pose proof PI_RGT_0 as Hpi.
  assert (Hk : 0 < 180 / PI) by (apply Rdiv_lt_0_compat; lra).
  assert (H180 : PI * (180 / PI) = 180) by (field; lra).
  set (k := 180 / PI) in *.
  split.
  - apply Rmult_le_pos; lra.
  - assert (Hle : (PI / 2 - asin (2 * (qw q * qy q - qx q * qz q))) * k <= PI * k)
      by (apply Rmult_le_compat_r; lra).
    lra.
Qed.

Lemma off_nadir_pitch_range_witness :
  exists p : R, TransformNode._off_nadir_pitch nadir = Fin p /\ 0 <= p <= 180.
Proof.
  apply off_nadir_pitch_range. rewrite nadir_sine. lra.
Defined.

(** X4.  For a sine term outside [-1, 1] the off-nadir pitch is NaN and
    the pitch check does not find the camera too high, whatever the
    limit. *)
Theorem pitch_check_passes_on_nan
    (self : TransformNode.t) (cg : GeoPoseStamped) (max_pitch : Z) :
  TransformNode.camera_geopose self = Some cg ->
  (let q := orientation (pose cg) in
   2 * (qw q * qy q - qx q * qz q) < -1 \/ 1 < 2 * (qw q * qy q - qx q * qz q)) ->
  TransformNode._off_nadir_pitch (orientation (pose cg)) = NaN
  /\ TransformNode._camera_roll_or_pitch_too_high self max_pitch = false.
Proof.
  intros Hcam Hout. cbv zeta in Hout.
  assert (Hnan : TransformNode._off_nadir_pitch (orientation (pose cg)) = NaN).
  { unfold TransformNode._off_nadir_pitch, np.arcsin.
    destruct (Rle_dec (-1) _) as [Hlo |]; [| reflexivity].
    destruct (Rle_dec _ 1) as [Hhi |]; [| reflexivity].
    exfalso. lra. }
  split; [exact Hnan |].
  unfold TransformNode._camera_roll_or_pitch_too_high. rewrite Hcam, Hnan. reflexivity.
Qed.

Lemma pitch_check_passes_on_nan_witness :
  TransformNode._off_nadir_pitch overlong = NaN
  /\ TransformNode._camera_roll_or_pitch_too_high (node_with_camera overlong) 30 = false.
Proof.
  apply (pitch_check_passes_on_nan (node_with_camera overlong)
           {| gps_stamp := 0;
              pose := {| position := {| latitude := 60; longitude := 24;
                                        gp_altitude := 100 |};
                         orientation := overlong |} |} 30).
  - reflexivity.
  - right. simpl. lra.
Defined.

(** X5.  With a minimum altitude that is not positive the gate returns
    [False] when the camera is too high or unknown, the pitch test
    coming first, and raises [AssertionError] otherwise, whatever the
    altitude. *)
Theorem gate_asserts_positive_minimum
    (self : TransformNode.t) (altitude : Altitude) (max_pitch min_alt : Z) :
  (min_alt <= 0)%Z ->
  (TransformNode._camera_roll_or_pitch_too_high self max_pitch = true ->
   TransformNode._should_estimate self altitude max_pitch min_alt = Returned false)
  /\ (TransformNode._camera_roll_or_pitch_too_high self max_pitch = false ->
      TransformNode._should_estimate self altitude max_pitch min_alt
      = Raised AssertionError).
Proof.
  intros Hmin. unfold TransformNode._should_estimate.
  split; intros Hpitch; rewrite Hpitch; [reflexivity |].
  replace (0 <? min_alt)%Z with false by (symmetry; apply Z.ltb_ge; exact Hmin).
  reflexivity.
Qed.

Lemma gate_asserts_positive_minimum_witness :
  TransformNode._should_estimate (node_with_camera nadir)
    (altitude_agl (PyFloat (Fin 100))) 30 0 = Raised AssertionError.
Proof.
  apply (gate_asserts_positive_minimum (node_with_camera nadir)
           (altitude_agl (PyFloat (Fin 100))) 30 0).
  - lia.
  - apply nadir_pitch_not_too_high. lia.
Defined.

(** X6.  Every longitude of the [k]-th band of six degrees east of -180,
    [k >= 0], is in zone [k + 1]; so longitude 180 is in zone 61. *)
Theorem utm_zone_bands (k : Z) (longitude : R) :
  (0 <= k)%Z ->
  -180 + 6 * IZR k <= longitude < -180 + 6 * IZR k + 6 ->
  TransformNode._determine_utm_zone longitude = (k + 1)%Z.
Proof.
  intros Hk [Hlo Hhi]. unfold TransformNode._determine_utm_zone.
  apply IZR_le in Hk.
  rewrite (py_int_floor _ k); [reflexivity | lra | lra].
Qed.

Lemma utm_zone_bands_witness :
  TransformNode._determine_utm_zone 180 = 61%Z.
Proof.
  apply (utm_zone_bands 60 180); [lia | lra].
Defined.

(** X7.  Truncation towards zero puts the longitudes between -186 and
    -180 in zone 1, like those of the first band. *)
Theorem utm_zone_west_of_antimeridian (longitude : R) :
  -186 < longitude < -180 ->
  TransformNode._determine_utm_zone longitude = 1%Z.
Proof.
  intros [Hlo Hhi]. unfold TransformNode._determine_utm_zone, py_int.
  destruct (Rle_dec 0 ((longitude + 180) / 6)) as [Hpos | _]; [exfalso; lra |].
  replace (Int_part (- ((longitude + 180) / 6))) with 0%Z; [reflexivity |].
  apply Int_part_spec. simpl. lra.
Qed.

Lemma utm_zone_west_of_antimeridian_witness :
  TransformNode._determine_utm_zone (-183) = 1%Z.
Proof. apply utm_zone_west_of_antimeridian. lra. Defined.

Lemma tan_shift (x : R) : cos x <> 0 -> sin (x + PI) / cos (x + PI) = tan x.
Proof. intros H. rewrite neg_sin, neg_cos. unfold tan. field. exact H. Qed.

Ltac decide_order :=
  repeat match goal with
         | |- context [Rlt_dec ?a ?b] => destruct (Rlt_dec a b); try (exfalso; lra)
         | |- context [Rle_dec ?a ?b] => destruct (Rle_dec a b); try (exfalso; lra)
         end.

Lemma arctan2_sin_cos (psi : R) :
  - PI < psi <= PI -> np.arctan2 (sin psi) (cos psi) = psi.
Proof.
  intros [Hlo Hhi]. pose proof PI_RGT_0 as Hpi. unfold np.arctan2.
  destruct (Rlt_dec psi (- (PI / 2))) as [Hwest | Hwest'].
  - assert (Hcos : cos psi < 0).
    { rewrite <- cos_neg. apply cos_lt_0; lra. }
    assert (Hsin : sin psi < 0) by (apply sin_lt_0_var; lra).
    decide_order.
    replace (sin psi / cos psi) with (tan (psi + PI)).
    + rewrite atan_tan; lra.
    + unfold tan. rewrite neg_sin, neg_cos. field. lra.
  - destruct (Req_dec_T psi (- (PI / 2))) as [-> | Hne].
    + rewrite cos_neg, sin_neg, cos_PI2, sin_PI2. decide_order. reflexivity.
    + destruct (Rlt_dec psi (PI / 2)) as [Heast | Heast'].
      * assert (Hcos : 0 < cos psi) by (apply cos_gt_0; lra).
        decide_order.
        change (sin psi / cos psi) with (tan psi). apply atan_tan. lra.
      * destruct (Req_dec_T psi (PI / 2)) as [-> | Hne2].
        -- rewrite cos_PI2, sin_PI2. decide_order. reflexivity.
        -- assert (Hcos : cos psi < 0) by (apply cos_lt_0; lra).
           assert (Hsin : 0 <= sin psi) by (apply sin_ge_0; lra).
           decide_order.
           replace (sin psi / cos psi) with (tan (psi - PI)).
           ++ rewrite atan_tan; lra.
           ++ unfold tan.
              assert (Hs : sin psi = - sin (psi - PI))
                by (rewrite <- neg_sin; f_equal; ring).
              assert (Hc : cos psi = - cos (psi - PI))
                by (rewrite <- neg_cos; f_equal; ring).
              rewrite Hs, Hc. field. lra.
Qed.

Lemma py_mod_value (x y : R) (k : Z) :
  0 < y -> IZR k * y <= x < (IZR k + 1) * y -> py_mod x y = x - IZR k * y.
Proof.
  intros Hy [Hlo Hhi]. unfold py_mod.
  replace (Int_part (x / y)) with k; [reflexivity |].
  apply Int_part_spec.
  assert (Hq : x / y * y = x) by (field; lra).
  split.
  - apply Rmult_lt_reg_r with y; [exact Hy |]. lra.
  - apply Rmult_le_reg_r with y; [exact Hy |]. lra.
Qed.

Lemma extract_yaw_of_yaw_quaternion (d : R) :
  -180 < d <= 180 ->
  TransformNode._extract_yaw (yaw_quaternion d) = py_mod (90 - d + 360) 360.
Proof.
  intros [Hlo Hhi]. pose proof PI_RGT_0 as Hpi.
  unfold TransformNode._extract_yaw, yaw_quaternion; cbn [qx qy qz qw].
  set (h := d * PI / 360).
  replace (2 * (cos h * sin h + 0 * 0)) with (sin (2 * h))
    by (rewrite sin_2a; ring).
  replace (1 - 2 * (0 ^ 2 + sin h ^ 2)) with (cos (2 * h))
    by (rewrite cos_2a_sin; ring).
  rewrite arctan2_sin_cos.
  - f_equal. unfold np.degrees, h. field. lra.
  - unfold h.
    assert (H1 : 0 < (d + 180) * PI) by (apply Rmult_lt_0_compat; lra).
    assert (H2 : 0 <= (180 - d) * PI) by (apply Rmult_le_pos; lra).
    lra.
Qed.

(** X8.  A rotation by [d] degrees about the vertical, counter-clockwise
    from east, has heading [90 - d], taken modulo 360: [90 - d] up to
    [d = 90] and [450 - d] beyond. *)
Theorem heading_of_yaw (d : R) :
  -180 < d <= 180 ->
  (d <= 90 -> TransformNode._extract_yaw (yaw_quaternion d) = 90 - d)
  /\ (90 < d -> TransformNode._extract_yaw (yaw_quaternion d) = 450 - d).
Proof.
  intros Hd. rewrite (extract_yaw_of_yaw_quaternion d Hd). split; intros H.
  - rewrite (py_mod_value _ 360 1); [lra | lra | lra].
  - rewrite (py_mod_value _ 360 0); [lra | lra | lra].
Qed.

Lemma heading_of_yaw_witness :
  TransformNode._extract_yaw (yaw_quaternion 90) = 90 - 90.
Proof. apply (heading_of_yaw 90); lra. Defined.

(** X10.  The rotation matrix of an image leaves the point
    [(height // 2, width // 2)] where it is. *)
Theorem rotation_fixes_centre
    (image : ndarray) (degrees : R) (h w : Z) (rest : list Z) :
  shape image = h :: w :: rest ->
  exists r : matrix,
    TransformNode._get_rotation_matrix image degrees = Returned r
    /\ matmul r [ [IZR (h / 2)]; [IZR (w / 2)]; [1] ]
       = Returned [ [IZR (h / 2)]; [IZR (w / 2)] ].
Proof.
  intros Hshape. unfold TransformNode._get_rotation_matrix. rewrite Hshape.
  eexists. split; [reflexivity |].
  cbv [cv2.getRotationMatrix2D matmul dot inner column forallb andb Nat.eqb nrows ncols
       length map seq combine fold_right nth fst snd].
  split_rows; ring.
Qed.

Lemma rotation_fixes_centre_witness :
  exists r : matrix,
    TransformNode._get_rotation_matrix raster_4x4 30 = Returned r
    /\ matmul r [ [2]; [2]; [1] ] = Returned [ [2]; [2] ].
Proof.
  exact (rotation_fixes_centre raster_4x4 30 4 4 [3%Z] eq_refl).
Defined.

(** X11.  The transform returned equals the composition of the rotation
    with the crop translation exactly when the two crop offsets add up
    to zero. *)
Theorem returned_transform_is_composition_iff
    (image : ndarray) (degrees : R) (crop_height crop_width h w : Z) (rest : list Z) :
  shape image = h :: w :: rest ->
  exists r t composed returned : matrix,
    TransformNode.affine_3d_composed image degrees crop_height crop_width
    = Returned (r, t, composed)
    /\ TransformNode._get_affine_matrix image degrees crop_height crop_width
       = Returned returned
    /\ (returned = composed
        <-> ((h - crop_height) / 2 + (w - crop_width) / 2 = 0)%Z).
Proof.
  intros Hshape.
  unfold TransformNode._get_affine_matrix, TransformNode.affine_3d_composed,
    TransformNode._get_rotation_matrix.
  rewrite Hshape. run_arrays.
  do 4 eexists. split; [reflexivity |]. split; [reflexivity |].
  set (dx := ((h - crop_height) / 2)%Z). set (dy := ((w - crop_width) / 2)%Z).
  split.
  - intros Heq.
    apply (f_equal (fun m : matrix => nth 3 (nth 0 m []) 0)) in Heq.
    cbv [nth] in Heq.
    apply eq_IZR. rewrite plus_IZR. lra.
  - intros Hsum.
    assert (Hdx : IZR dx = - IZR dy).
    { apply (f_equal IZR) in Hsum. rewrite plus_IZR in Hsum. lra. }
    rewrite Hdx. split_rows; ring.
Qed.

Lemma returned_transform_is_composition_iff_witness :
  exists r t composed returned : matrix,
    TransformNode.affine_3d_composed raster_4x4 30 4 4 = Returned (r, t, composed)
    /\ TransformNode._get_affine_matrix raster_4x4 30 4 4 = Returned returned
    /\ (returned = composed <-> ((4 - 4) / 2 + (4 - 4) / 2 = 0)%Z).
Proof.
  exact (returned_transform_is_composition_iff raster_4x4 30 4 4 4 4 [3%Z] eq_refl).
Defined.

(** X12.  For an array of fewer than two dimensions the aligner raises
    [ValueError]; nothing is warped. *)
Theorem aligner_needs_two_dimensions {E : Externals}
    (image : ndarray) (degrees : R) (crop : Z * Z) :
  (length (shape image) < 2)%nat ->
  TransformNode._rotate_and_crop_image image degrees crop = Raised ValueError.
Proof.
  intros H. unfold TransformNode._rotate_and_crop_image, TransformNode._get_affine_matrix,
    TransformNode.affine_3d_composed, TransformNode._get_rotation_matrix.
  destruct (shape image) as [| h [| w rest]]; [reflexivity | reflexivity |].
  simpl in H. lia.
Qed.

Lemma aligner_needs_two_dimensions_witness :
  TransformNode._rotate_and_crop_image {| shape := [4%Z]; data := [] |} 0 (2, 2)%Z
  = Raised ValueError.
Proof.
  apply (aligner_needs_two_dimensions (E := blank_externals)). simpl. lia.
Defined.

(** X13.  [_pnp_image] never returns, a message or [None]: every call
    raises.  With an orthoimage stack of three channels and a query
    image of two dimensions or more the alignment is made and the call
    raises [NameError] at [query_array]. *)
Theorem pnp_image_never_returns {E : Externals}
    (self : TransformNode.t) (image orthoimage : Image)
    (context : TransformNode._PoseEstimationContext) :
  (forall result : option Image,
      TransformNode._pnp_image self image orthoimage context <> Returned result)
  /\ (forall (o : Image) (h w qh qw : Z) (rest qrest : list Z),
         TransformNode.orthoimage self = Some o ->
         shape (img o) = h :: w :: 3%Z :: rest ->
         shape (img image) = qh :: qw :: qrest ->
         TransformNode._pnp_image self image orthoimage context = Raised NameError).
Proof.
  split.
  - intros result. unfold TransformNode._pnp_image. cbv zeta.
    destruct (match TransformNode.orthoimage self with
              | Some o => Returned (img o)
              | None => Raised AttributeError
              end) as [stack |]; [| discriminate].
    cbn [bind].
    destruct (getitem (shape stack) 2) as [channels |]; [| discriminate].
    cbn [bind].
    destruct (assert (channels =? 3)%Z); [| discriminate]. cbn [bind].
    destruct (match shape (img image) with
              | h :: w :: _ => Returned (h, w)
              | _ => Raised TypeError
              end) as [crop_shape |]; [| discriminate].
    cbn [bind].
    destruct (TransformNode._rotate_and_crop_image stack _ crop_shape)
      as [[aligned affine] |]; discriminate.
  - intros o h w qh qw rest qrest Ho Hshape Hquery.
    exact (pnp_image_stops_at_query_array self image orthoimage o context
             h w qh qw rest qrest Ho Hshape Hquery).
Qed.

Lemma pnp_image_never_returns_witness :
  TransformNode.orthoimage node_with_orthoimage
  = Some (TransformNode.ctx_orthoimage context_60_24)
  /\ TransformNode._pnp_image (E := blank_externals) node_with_orthoimage query_2x2
       (TransformNode.ctx_orthoimage context_60_24) context_60_24
     = Raised NameError.
Proof.
  split; [reflexivity |].
  exact (proj2 (pnp_image_never_returns (E := blank_externals) node_with_orthoimage
                  query_2x2 (TransformNode.ctx_orthoimage context_60_24) context_60_24)
           (TransformNode.ctx_orthoimage context_60_24) 4%Z 4%Z 2%Z 2%Z [] []
           eq_refl eq_refl eq_refl).
Defined.

(** X14.  [_pnp_image] raises [IndexError] for an orthoimage without a
    third axis and [AssertionError] for one whose channel count is
    not 3. *)
Theorem pnp_image_checks_channels {E : Externals}
    (self : TransformNode.t) (image orthoimage o : Image)
    (context : TransformNode._PoseEstimationContext) :
  TransformNode.orthoimage self = Some o ->
  ((length (shape (img o)) < 3)%nat ->
   TransformNode._pnp_image self image orthoimage context = Raised IndexError)
  /\ (forall channels : Z,
         nth_error (shape (img o)) 2 = Some channels ->
         channels <> 3%Z ->
         TransformNode._pnp_image self image orthoimage context
         = Raised AssertionError).
Proof.
  intros Ho. unfold TransformNode._pnp_image. cbv zeta. rewrite Ho. cbn [bind].
  unfold getitem. split.
  - intros Hlen.
    assert (Hnone : nth_error (shape (img o)) 2 = None)
      by (apply nth_error_None; lia).
    rewrite Hnone. reflexivity.
  - intros channels Hnth Hne. rewrite Hnth. cbn [bind].
    apply Z.eqb_neq in Hne. rewrite Hne. reflexivity.
Qed.

Lemma pnp_image_checks_channels_witness :
  TransformNode._pnp_image (E := blank_externals) node_with_flat_orthoimage
    query_2x2 query_2x2 context_60_24
  = Raised IndexError.
Proof.
  apply (proj1 (pnp_image_checks_channels (E := blank_externals)
                  node_with_flat_orthoimage query_2x2 query_2x2
                  query_2x2 context_60_24 eq_refl)).
  simpl. lia.
Defined.

Lemma echo_kalman_update_shapes : PyKalmanUpdateShapes echo_kalman.
Proof. constructor; intros; [reflexivity | assumption]. Qed.

Section SmootherSession.

Context {K : PyKalman}.

Lemma primed_call {U : PyKalmanUpdateShapes K}
    (w : Z) (buf : matrix) (kf : KalmanFilter) (self : SimpleFilter.t) (m : matrix) :
  primed w buf kf self ->
  primed w buf kf (fst (SimpleFilter.update self m))
  /\ exists est : vector * list float64,
      snd (SimpleFilter.update self m) = Returned (Some est)
      /\ length (fst est) = 3%nat
      /\ length (snd est) = 3%nat.
Proof.
  intros (seed & mean & cov & -> & Hfull & Hpos & Hm6 & Hc6).
  unfold SimpleFilter.update.
  cbn [SimpleFilter._measurements SimpleFilter._window_length].
  replace (Z.of_nat (length buf) <? w)%Z with false
    by (symmetry; apply Z.ltb_ge; exact Hfull).
  replace (0 <? length buf)%nat with true by (symmetry; apply Nat.ltb_lt; exact Hpos).
  cbn [negb]. unfold SimpleFilter.estimate.
  cbn [SimpleFilter._kf SimpleFilter._previous_mean SimpleFilter._previous_covariance].
  pose proof (filter_update_mean_shape kf mean cov (squeeze m) Hm6 Hc6) as Hmean.
  pose proof (filter_update_covariance_shape kf mean cov (squeeze m) Hm6 Hc6) as Hcov.
  destruct (filter_update kf mean cov (squeeze m)) as [mean' cov'].
  cbn [fst snd] in Hmean, Hcov.
  destruct (estimate_shapes mean' cov' Hmean Hcov) as (Hret & H3).
  cbn [fst snd]. rewrite Hret. split.
  - exists seed, mean', cov'. repeat split; assumption.
  - eexists. split; [reflexivity | exact H3].
Qed.

Lemma priming_call_state {S : PyKalmanShapes K}
    (w : Z) (k : nat) (self : SimpleFilter.t) (m : matrix) :
  buffering w k self ->
  (2 <= k)%nat ->
  (w <= Z.of_nat k)%Z ->
  (exists (buf : matrix) (kf : KalmanFilter),
      primed w buf kf (fst (SimpleFilter.update self m)))
  /\ exists est : vector * list float64,
      snd (SimpleFilter.update self m) = Returned (Some est)
      /\ length (fst est) = 3%nat
      /\ length (snd est) = 3%nat.
Proof.
  intros Hbuf Hk Hw.
  destruct (priming_update w k self m Hbuf Hk Hw)
    as (buf & seed & kf & mean & cov & Hupd & Hlen & Hmean6 & Hcov6).
  rewrite Hupd. cbn [fst snd]. split.
  - exists buf, kf. exists (Some seed), mean, cov.
    repeat split; [lia | lia | assumption | assumption].
  - eexists. split; [reflexivity |].
    exact (proj2 (estimate_shapes mean cov Hmean6 Hcov6)).
Qed.

Lemma primed_run {U : PyKalmanUpdateShapes K}
    (w : Z) (buf : matrix) (kf : KalmanFilter) (ms : list matrix) :
  forall self : SimpleFilter.t,
    primed w buf kf self ->
    primed w buf kf (fst (SimpleFilter.run self ms))
    /\ exists ests : list (vector * list float64),
        snd (SimpleFilter.run self ms) = map (fun e => Returned (Some e)) ests
        /\ length ests = length ms
        /\ Forall estimate_shape ests.
Proof.
  induction ms as [| m ms IH]; intros self Hprimed.
  - split; [exact Hprimed |]. exists []. repeat split. constructor.
  - destruct (primed_call w buf kf self m Hprimed) as (Hnext & est & Hest & Hshape).
    simpl. destruct (SimpleFilter.update self m) as [self1 out].
    simpl in Hnext, Hest. subst out.
    destruct (IH self1 Hnext) as (Hlast & ests & Hests & Hlen & Hshapes).
    destruct (SimpleFilter.run self1 ms) as [self2 outs].
    simpl in Hlast, Hests. subst outs. simpl.
    split; [exact Hlast |]. exists (est :: ests). split; [reflexivity |].
    split; [simpl; now rewrite Hlen |].
    constructor; [exact Hshape | exact Hshapes].
Qed.

Lemma buffering_after (w : Z) (ms : list matrix) :
  (1 <= length ms)%nat ->
  (Z.of_nat (length ms) <= w)%Z ->
  Forall (fun m => has_shape 1 3 m = true) ms ->
  buffering w (length ms) (fst (SimpleFilter.run (SimpleFilter.__init__ w) ms))
  /\ snd (SimpleFilter.run (SimpleFilter.__init__ w) ms)
     = repeat (Returned None) (length ms).
Proof.
  intros Hlen Hw Hshapes.
  destruct ms as [| m0 ms]; [simpl in Hlen; lia |].
  inversion Hshapes as [| ? ? Hm0 Hms]; subst.
  destruct (first_call_buffers w m0 Hm0) as [Hbuf1 Hout1].
  cbn [SimpleFilter.run].
  destruct (SimpleFilter.update (SimpleFilter.__init__ w) m0) as [self1 out1].
  simpl in Hbuf1, Hout1. subst out1.
  destruct (buffering_run w ms 1 self1 Hbuf1) as [Hbuf2 Houts].
  - simpl in Hw. lia.
  - exact Hms.
  - destruct (SimpleFilter.run self1 ms) as [self2 outs].
    simpl in Hbuf2, Houts. subst outs. split; [exact Hbuf2 | reflexivity].
Qed.

End SmootherSession.

(** X16.  Over a session of more than [w] measurements, [w >= 2], the
    smoother returns nothing for the first [w] calls and an estimate of
    three coordinates and three deviations for every call after.
    pykalman is taken to fit and filter a buffer of two or more rows
    and to step a six-dimensional state. *)
Theorem smoother_session_outputs
    {K : PyKalman} {S : PyKalmanShapes K} {U : PyKalmanUpdateShapes K}
    (w : Z) (ms : list matrix) :
  (2 <= w)%Z ->
  (Z.to_nat w < length ms)%nat ->
  Forall (fun m => has_shape 1 3 m = true) ms ->
  exists ests : list (vector * list float64),
    snd (SimpleFilter.run (SimpleFilter.__init__ w) ms)
    = repeat (Returned None) (Z.to_nat w) ++ map (fun e => Returned (Some e)) ests
    /\ length ests = (length ms - Z.to_nat w)%nat
    /\ Forall estimate_shape ests.
Proof.
  intros Hw Hlen Hshapes.
  rewrite <- (firstn_skipn (Z.to_nat w) ms) in Hshapes |- *.
  apply Forall_app in Hshapes. destruct Hshapes as [Hhead Htail].
  assert (Hn : length (firstn (Z.to_nat w) ms) = Z.to_nat w)
    by (rewrite length_firstn; lia).
  destruct (buffering_after w (firstn (Z.to_nat w) ms)) as [Hbuf Hnone];
    [lia | lia | exact Hhead |].
  rewrite Hn in Hbuf, Hnone.
  destruct (skipn (Z.to_nat w) ms) as [| m rest] eqn:Hskip.
  { apply (f_equal (@length matrix)) in Hskip. rewrite length_skipn in Hskip.
    simpl in Hskip. lia. }
  assert (Hrest : length rest = (length ms - Z.to_nat w - 1)%nat).
  { apply (f_equal (@length matrix)) in Hskip. rewrite length_skipn in Hskip.
    simpl in Hskip. lia. }
  rewrite run_app. cbn [snd]. rewrite Hnone.
  set (self0 := fst (SimpleFilter.run (SimpleFilter.__init__ w) (firstn (Z.to_nat w) ms)))
    in *.
  destruct (priming_call_state w (Z.to_nat w) self0 m Hbuf ltac:(lia) ltac:(lia))
    as ((buf & kf & Hprimed) & est & Hest & Hshape).
  cbn [SimpleFilter.run].
  destruct (SimpleFilter.update self0 m) as [self1 out].
  simpl in Hprimed, Hest. subst out.
  destruct (primed_run w buf kf rest self1 Hprimed)
    as (_ & ests & Hests & Hcount & Hshapes).
  destruct (SimpleFilter.run self1 rest) as [self2 outs].
  simpl in Hests. subst outs. cbn [snd].
  exists (est :: ests). split; [reflexivity |]. split.
  - rewrite length_app, Hn. simpl. lia.
  - constructor; [exact Hshape | exact Hshapes].
Qed.

Lemma smoother_session_outputs_witness :
  exists ests : list (vector * list float64),
    snd (SimpleFilter.run (SimpleFilter.__init__ 2)
           [observation 1 2 3; observation 2 3 4; observation 3 4 5;
            observation 4 5 6])
    = [Returned None; Returned None] ++ map (fun e => Returned (Some e)) ests
    /\ length ests = 2%nat.
Proof.
  destruct (smoother_session_outputs (K := echo_kalman) (S := echo_kalman_shapes)
              (U := echo_kalman_update_shapes) 2
              [observation 1 2 3; observation 2 3 4; observation 3 4 5;
               observation 4 5 6])
    as (ests & Hrun & Hlen & _).
  - lia.
  - simpl. lia.
  - repeat constructor.
  - exists ests. split; [exact Hrun | exact Hlen].
Defined.

(** X17.  With a window length of 1 or less, also zero or negative, the
    filter is never fitted: the first call returns nothing, the second
    hands pykalman the buffer of one row and raises its [ValueError],
    leaving the unfitted filter in place, and every later call fails
    the assertion on the previous mean. *)
Theorem window_of_one_never_primes
    {K : PyKalman} {O : PyKalmanOneRow K}
    (w : Z) (first second : matrix) (later : list matrix) :
  (w <= 1)%Z ->
  has_shape 1 3 first = true ->
  snd (SimpleFilter.run (SimpleFilter.__init__ w) (first :: second :: later))
  = Returned None :: Raised ValueError
    :: repeat (Raised AssertionError) (length later).
Proof.
  intros Hw Hfirst. unfold has_shape in Hfirst. simpl in Hfirst.
  destruct first as [| row [| ? ?]]; try discriminate Hfirst.
  simpl in Hfirst. rewrite andb_true_r in Hfirst. apply Nat.eqb_eq in Hfirst.
  do 4 (destruct row as [| ? row]; try discriminate Hfirst).
  set (self1 := SimpleFilter.set_initial_state_mean
                  (SimpleFilter.set_measurements (SimpleFilter.__init__ w)
                     [ [r; r0; r1] ])
                  [r; 0; r0; 0; r1; 0]).
  assert (Hfirst_call :
            SimpleFilter.update (SimpleFilter.__init__ w) [ [r; r0; r1] ]
            = (self1, Returned None)) by reflexivity.
  set (self2 := SimpleFilter.set_kf self1
                  (new_KalmanFilter SimpleFilter._transition_matrix
                     SimpleFilter._observation_matrix (Some [r; 0; r0; 0; r1; 0]))).
  assert (Hsecond : SimpleFilter.update self1 second = (self2, Raised ValueError)).
  { unfold SimpleFilter.update, self2, self1.
    cbn [SimpleFilter._measurements SimpleFilter.set_initial_state_mean
         SimpleFilter.set_measurements SimpleFilter._window_length
         SimpleFilter.__init__ length].
    replace (Z.of_nat 1 <? w)%Z with false by (symmetry; apply Z.ltb_ge; lia).
    cbn [Nat.ltb Nat.leb negb]. unfold SimpleFilter.estimate.
    cbn [SimpleFilter._kf SimpleFilter._initial_state_mean
         SimpleFilter.set_initial_state_mean SimpleFilter.set_measurements
         SimpleFilter.__init__].
    rewrite em_one_row by (simpl; lia). reflexivity. }
  assert (Hstuck : forall ms,
             snd (SimpleFilter.run self2 ms)
             = repeat (Raised AssertionError) (length ms)
             /\ fst (SimpleFilter.run self2 ms) = self2).
  { induction ms as [| m ms [IHouts IHself]]; [split; reflexivity |].
    assert (Hupd : SimpleFilter.update self2 m = (self2, Raised AssertionError)).
    { unfold SimpleFilter.update, self2, self1.
      cbn [SimpleFilter._measurements SimpleFilter.set_kf
           SimpleFilter.set_initial_state_mean SimpleFilter.set_measurements
           SimpleFilter._window_length SimpleFilter.__init__ length].
      replace (Z.of_nat 1 <? w)%Z with false by (symmetry; apply Z.ltb_ge; lia).
      reflexivity. }
    rewrite run_cons, Hupd. cbn [fst snd]. rewrite IHouts, IHself.
    split; reflexivity. }
  rewrite run_cons, Hfirst_call. cbn [fst snd].
  rewrite run_cons, Hsecond. cbn [fst snd].
  rewrite (proj1 (Hstuck later)). reflexivity.
Qed.

Lemma window_of_one_never_primes_witness :
  snd (SimpleFilter.run (K := echo_kalman) (SimpleFilter.__init__ 1)
         [observation 1 2 3; observation 2 3 4; observation 3 4 5])
  = [Returned None; Raised ValueError; Raised AssertionError].
Proof.
  apply (window_of_one_never_primes (K := echo_kalman) (O := echo_kalman_one_row)
           1 (observation 1 2 3) (observation 2 3 4) [observation 3 4 5]).
  - lia.
  - reflexivity.
Defined.

Section SmootherState.

Context {K : PyKalman}.

Lemma update_keeps_window (self : SimpleFilter.t) (m : matrix) :
  SimpleFilter._window_length (fst (SimpleFilter.update self m))
  = SimpleFilter._window_length self.
Proof.
  unfold SimpleFilter.update.
  destruct (SimpleFilter._measurements self) as [buf |] eqn:Hbuf.
  - destruct (Z.of_nat (length buf) <? SimpleFilter._window_length self)%Z.
    + destruct (vstack buf m); reflexivity.
    + destruct (negb (0 <? length buf)%nat); [reflexivity |].
      unfold SimpleFilter.estimate.
      destruct (SimpleFilter._kf self) as [kf |].
      * destruct (SimpleFilter._previous_mean self),
          (SimpleFilter._previous_covariance self); try reflexivity.
        destruct (filter_update kf _ _ _). reflexivity.
      * destruct (em _ buf 20%nat) as [fitted |]; [| reflexivity].
        destruct (filter fitted buf) as [[means covariances] |]; [| reflexivity].
        destruct (last_item means); [| reflexivity].
        destruct (last_item covariances); reflexivity.
  - unfold SimpleFilter._init_initial_state.
    destruct (row0 <- getitem m 0 ;; x <- getitem row0 0 ;; y <- getitem row0 1 ;;
              z <- getitem row0 2 ;; Returned [x; 0; y; 0; z; 0]); reflexivity.
Qed.

Lemma update_full_buffer (self : SimpleFilter.t) (buf m : matrix) :
  SimpleFilter._measurements self = Some buf ->
  (SimpleFilter._window_length self <= Z.of_nat (length buf))%Z ->
  SimpleFilter._measurements (fst (SimpleFilter.update self m)) = Some buf
  /\ SimpleFilter._initial_state_mean (fst (SimpleFilter.update self m))
     = SimpleFilter._initial_state_mean self.
Proof.
  intros Hbuf Hfull. unfold SimpleFilter.update. rewrite Hbuf.
  replace (Z.of_nat (length buf) <? SimpleFilter._window_length self)%Z with false
    by (symmetry; apply Z.ltb_ge; exact Hfull).
  destruct (negb (0 <? length buf)%nat); [split; [exact Hbuf | reflexivity] |].
  unfold SimpleFilter.estimate.
  destruct (SimpleFilter._kf self) as [kf |].
  - destruct (SimpleFilter._previous_mean self),
      (SimpleFilter._previous_covariance self);
      try (split; [exact Hbuf | reflexivity]).
    destruct (filter_update kf _ _ _). split; [exact Hbuf | reflexivity].
  - destruct (em _ buf 20%nat) as [fitted |]; [| split; [exact Hbuf | reflexivity]].
    destruct (filter fitted buf) as [[means covariances] |];
      [| split; [exact Hbuf | reflexivity]].
    destruct (last_item means); [| split; [exact Hbuf | reflexivity]].
    destruct (last_item covariances); split; solve [exact Hbuf | reflexivity].
Qed.

Lemma update_appends (self : SimpleFilter.t) (buf : matrix) (row : list R) :
  SimpleFilter._measurements self = Some buf ->
  (Z.of_nat (length buf) < SimpleFilter._window_length self)%Z ->
  ncols buf = length row ->
  SimpleFilter.update self [row]
  = (SimpleFilter.set_measurements self (buf ++ [row]), Returned None).
Proof.
  intros Hbuf Hroom Hcols. unfold SimpleFilter.update. rewrite Hbuf.
  apply Z.ltb_lt in Hroom. rewrite Hroom.
  unfold vstack. rewrite Hcols. cbn [ncols]. rewrite Nat.eqb_refl. reflexivity.
Qed.

End SmootherState.

Section SmootherBuffer.

Context {K : PyKalman}.

Lemma run_buffer (W : nat) (rest : list (list R)) :
  (1 <= W)%nat ->
  forall (seen : list (list R)) (self : SimpleFilter.t),
    seen <> [] ->
    Forall (fun r => length r = 3%nat) (seen ++ rest) ->
    SimpleFilter._measurements self = Some (firstn W seen) ->
    SimpleFilter._window_length self = Z.of_nat W ->
    let final := fst (SimpleFilter.run self (map (fun r => [r]) rest)) in
    SimpleFilter._measurements final = Some (firstn W (seen ++ rest))
    /\ SimpleFilter._initial_state_mean final = SimpleFilter._initial_state_mean self
    /\ SimpleFilter._window_length final = Z.of_nat W.
Proof.
  intros HW. induction rest as [| r rest IH]; intros seen self Hseen Hrows Hbuf Hwin.
  - cbn. rewrite app_nil_r. repeat split; assumption.
  - cbn [map SimpleFilter.run].
    assert (Hstep :
              SimpleFilter._measurements (fst (SimpleFilter.update self [r]))
              = Some (firstn W (seen ++ [r]))
              /\ SimpleFilter._initial_state_mean (fst (SimpleFilter.update self [r]))
                 = SimpleFilter._initial_state_mean self
              /\ SimpleFilter._window_length (fst (SimpleFilter.update self [r]))
                 = Z.of_nat W).
    { destruct (Nat.lt_ge_cases (length seen) W) as [Hroom | Hfull].
      - rewrite firstn_all2 in Hbuf by lia.
        rewrite firstn_all2 by (rewrite length_app; simpl; lia).
        rewrite (update_appends self seen r Hbuf).
        + repeat split; [exact Hwin].
        + rewrite Hwin. lia.
        + apply Forall_app in Hrows. destruct Hrows as [Hs Hr].
          inversion Hr as [| ? ? Hr3 _]; subst. rewrite Hr3.
          destruct seen as [| s0 seen']; [contradiction |].
          inversion Hs; subst. assumption.
      - destruct (update_full_buffer self (firstn W seen) [r] Hbuf) as [Hkeep Hseed].
        + rewrite Hwin, length_firstn. lia.
        + split; [| split; [exact Hseed | rewrite update_keeps_window; exact Hwin]].
          rewrite Hkeep. f_equal. rewrite firstn_app.
          replace (W - length seen)%nat with 0%nat by lia.
          cbn. now rewrite app_nil_r. }
    destruct (SimpleFilter.update self [r]) as [self1 out]. cbn [fst] in Hstep.
    destruct Hstep as (Hbuf1 & Hseed1 & Hwin1).
    specialize (IH (seen ++ [r]) self1).
    rewrite <- app_assoc in IH. cbn [app] in IH.
    destruct IH as (Hb & Hs & Hw); try assumption.
    { destruct seen; discriminate. }
    destruct (SimpleFilter.run self1 (map (fun r0 => [r0]) rest)) as [self2 outs].
    cbn [fst] in *. repeat split; [exact Hb | congruence | exact Hw].
Qed.

End SmootherBuffer.

(** X18.  After any session the buffer holds the first [w] measurements
    in order of arrival, the seed of the state is the first position
    with zero velocities and the window length is unchanged. *)
Theorem buffer_holds_first_window {K : PyKalman}
    (w : Z) (x y z : R) (rows : list (list R)) :
  (1 <= w)%Z ->
  Forall (fun r => length r = 3%nat) rows ->
  let final :=
    fst (SimpleFilter.run (SimpleFilter.__init__ w)
           (map (fun r => [r]) ([x; y; z] :: rows))) in
  SimpleFilter._measurements final = Some (firstn (Z.to_nat w) ([x; y; z] :: rows))
  /\ SimpleFilter._initial_state_mean final = Some [x; 0; y; 0; z; 0]
  /\ SimpleFilter._window_length final = w.
Proof.
  intros Hw Hrows. cbn [map SimpleFilter.run].
  change (SimpleFilter.update (SimpleFilter.__init__ w) [ [x; y; z] ])
    with (SimpleFilter.set_initial_state_mean
            (SimpleFilter.set_measurements (SimpleFilter.__init__ w) [ [x; y; z] ])
            [x; 0; y; 0; z; 0], @Returned (option (vector * list float64)) None).
  set (self1 := SimpleFilter.set_initial_state_mean _ _).
  destruct (run_buffer (Z.to_nat w) rows ltac:(lia) [ [x; y; z] ] self1)
    as (Hb & Hs & Hwin).
  - discriminate.
  - constructor; [reflexivity | exact Hrows].
  - cbn. destruct (Z.to_nat w) eqn:HW; [lia |]. cbn [firstn]. now rewrite firstn_nil.
  - cbn. lia.
  - cbv zeta. cbn [app] in Hb.
    destruct (SimpleFilter.run self1 (map (fun r => [r]) rows)) as [self2 outs].
    cbn [fst] in *. rewrite Z2Nat.id in Hwin by lia.
    repeat split; assumption.
Qed.

Lemma buffer_holds_first_window_witness :
  SimpleFilter._measurements
    (fst (SimpleFilter.run (K := echo_kalman) (SimpleFilter.__init__ 2)
            (map (fun r => [r]) [ [1; 2; 3]; [2; 3; 4]; [3; 4; 5]; [4; 5; 6] ])))
  = Some [ [1; 2; 3]; [2; 3; 4] ].
Proof.
  apply (buffer_holds_first_window (K := echo_kalman) 2 1 2 3
           [ [2; 3; 4]; [3; 4; 5]; [4; 5; 6] ]).
  - lia.
  - repeat constructor.
Defined.

(** X19.  Once the filter exists a call steps it from the previous mean
    and covariance with the measurement, stores the outcome and
    returns its position part; the buffer and the fitted filter stay
    as they are. *)
Theorem online_update_keeps_buffer_and_filter
    {K : PyKalman} {U : PyKalmanUpdateShapes K}
    (w : Z) (buf : matrix) (kf : KalmanFilter) (self : SimpleFilter.t) (m : matrix) :
  primed w buf kf self ->
  exists (mean : vector) (covariance : matrix),
    SimpleFilter._previous_mean self = Some mean
    /\ SimpleFilter._previous_covariance self = Some covariance
    /\ let step := filter_update kf mean covariance (squeeze m) in
       SimpleFilter.update self m
       = (SimpleFilter.set_previous self (fst step) (snd step),
          Returned (Some (every_other (fst step),
                          map np.sqrt (every_other (diagonal (snd step))))))
       /\ SimpleFilter._measurements (fst (SimpleFilter.update self m)) = Some buf
       /\ SimpleFilter._kf (fst (SimpleFilter.update self m)) = Some kf.
Proof.
  intros (seed & mean & cov & -> & Hfull & Hpos & Hm6 & Hc6).
  exists mean, cov. split; [reflexivity |]. split; [reflexivity |]. cbv zeta.
  unfold SimpleFilter.update.
  cbn [SimpleFilter._measurements SimpleFilter._window_length].
  replace (Z.of_nat (length buf) <? w)%Z with false
    by (symmetry; apply Z.ltb_ge; exact Hfull).
  replace (0 <? length buf)%nat with true by (symmetry; apply Nat.ltb_lt; exact Hpos).
  cbn [negb]. unfold SimpleFilter.estimate.
  cbn [SimpleFilter._kf SimpleFilter._previous_mean SimpleFilter._previous_covariance].
  pose proof (filter_update_mean_shape kf mean cov (squeeze m) Hm6 Hc6) as Hmean.
  pose proof (filter_update_covariance_shape kf mean cov (squeeze m) Hm6 Hc6) as Hcov.
  destruct (filter_update kf mean cov (squeeze m)) as [mean' cov'].
  cbn [fst snd] in *.
  destruct (estimate_shapes mean' cov' Hmean Hcov) as (Hret & _).
  rewrite Hret. repeat split.
Qed.

Lemma online_update_keeps_buffer_and_filter_witness :
  SimpleFilter._measurements
    (fst (SimpleFilter.update
            (fst (SimpleFilter.run (K := echo_kalman) (SimpleFilter.__init__ 2)
                    [observation 1 2 3; observation 2 3 4; observation 3 4 5]))
            (observation 4 5 6)))
  = Some [ [1; 2; 3]; [2; 3; 4] ].
Proof.
  destruct (online_update_keeps_buffer_and_filter
              (K := echo_kalman) (U := echo_kalman_update_shapes)
              2 [ [1; 2; 3]; [2; 3; 4] ] tt
              (fst (SimpleFilter.run (K := echo_kalman) (SimpleFilter.__init__ 2)
                      [observation 1 2 3; observation 2 3 4; observation 3 4 5]))
              (observation 4 5 6))
    as (mean & cov & _ & _ & _ & Hbuf & _).
  - exists (Some [1; 0; 2; 0; 3; 0]), (echo_mean [2; 3; 4]), (eye 6).
    split; [reflexivity |]. split; [simpl; lia |]. split; [simpl; lia |].
    split; reflexivity.
  - exact Hbuf.
Defined.

(** X20.  A first measurement without rows, or whose first row has fewer
    than three entries, raises [IndexError] and is all the same kept as
    the buffer; no seed is set. *)
Theorem malformed_first_measurement_is_kept {K : PyKalman} (w : Z) (m : matrix) :
  match m with
  | [] => True
  | row :: _ => (length row < 3)%nat
  end ->
  SimpleFilter.update (SimpleFilter.__init__ w) m
  = (SimpleFilter.set_measurements (SimpleFilter.__init__ w) m, Raised IndexError).
Proof.
  intros H. unfold SimpleFilter.update, SimpleFilter._init_initial_state.
  cbn [SimpleFilter.__init__ SimpleFilter._measurements].
  destruct m as [| row rest]; [reflexivity |].
  destruct row as [| a [| b [| c row]]]; try reflexivity.
  simpl in H. lia.
Qed.

Lemma malformed_first_measurement_is_kept_witness :
  SimpleFilter.update (K := echo_kalman) (SimpleFilter.__init__ 2) [ [1; 2] ]
  = (SimpleFilter.set_measurements (SimpleFilter.__init__ 2) [ [1; 2] ],
     Raised IndexError).
Proof.
  apply (malformed_first_measurement_is_kept (K := echo_kalman) 2 [ [1; 2] ]).
  simpl. lia.
Defined.

(** X21.  While buffering, a measurement whose column count differs from
    the buffer's raises [ValueError] and leaves the filter as it was. *)
Theorem mismatched_measurement_is_rejected {K : PyKalman}
    (self : SimpleFilter.t) (buf m : matrix) :
  SimpleFilter._measurements self = Some buf ->
  (Z.of_nat (length buf) < SimpleFilter._window_length self)%Z ->
  ncols buf <> ncols m ->
  SimpleFilter.update self m = (self, Raised ValueError).
Proof.
  intros Hbuf Hroom Hcols. unfold SimpleFilter.update. rewrite Hbuf.
  apply Z.ltb_lt in Hroom. rewrite Hroom.
  unfold vstack. apply Nat.eqb_neq in Hcols. rewrite Hcols. reflexivity.
Qed.

Lemma mismatched_measurement_is_rejected_witness :
  SimpleFilter.update
    (fst (SimpleFilter.update (K := echo_kalman) (SimpleFilter.__init__ 3)
            (observation 1 2 3)))
    [ [1; 2] ]
  = (fst (SimpleFilter.update (K := echo_kalman) (SimpleFilter.__init__ 3)
            (observation 1 2 3)),
     Raised ValueError).
Proof.
  apply (mismatched_measurement_is_rejected (K := echo_kalman) _ [ [1; 2; 3] ]).
  - reflexivity.
  - simpl. lia.
  - simpl. lia.
Defined.

(** X9.  A quaternion and its negation, which stand for the same
    rotation, have the same heading and the same off-nadir pitch. *)
Theorem antipodal_quaternions_agree (q : Quaternion) :
  TransformNode._extract_yaw (antipode q) = TransformNode._extract_yaw q
  /\ TransformNode._off_nadir_pitch (antipode q) = TransformNode._off_nadir_pitch q.
Proof.
  unfold TransformNode._extract_yaw, TransformNode._off_nadir_pitch, antipode.
  cbn [qx qy qz qw]. split.
  - replace (2 * (- qw q * - qz q + - qx q * - qy q))
      with (2 * (qw q * qz q + qx q * qy q)) by ring.
    replace (1 - 2 * ((- qy q) ^ 2 + (- qz q) ^ 2))
      with (1 - 2 * (qy q ^ 2 + qz q ^ 2)) by ring.
    reflexivity.
  - replace (2 * (- qw q * - qy q - - qx q * - qz q))
      with (2 * (qw q * qy q - qx q * qz q)) by ring.
    reflexivity.
Qed.
